(** * OniCommerce: the shopping cart reducer and its pricing calculator

    A shallow embedding of the cart context ([cartReducer],
    [calculateCartSummary], the [CartProvider] effects and operations) and of
    the enhanced cart hook ([applyDiscountSafely]).

    JavaScript's [number] is kept behind the interface [JsNumber]: the code is
    embedded once, over that interface, and read at the binary64 floats the
    program computes with.  What is proved over the interface holds of the
    program whatever its arithmetic does; what depends on rounding, NaN or
    the order of numbers is proved at the floats. *)

From Stdlib Require Import List String Bool Arith ZArith Floats Permutation
  Lia.
From Stdlib Require Import SpecFloat FloatAxioms.
Import ListNotations.

Set Implicit Arguments.
Set Warnings "-inexact-float".
Open Scope string_scope.
Open Scope list_scope.

(** ** Numbers *)

(** The operations the cart code applies to values of type [number]. *)
Class JsNumber (num : Type) : Type := {
  zero : num;                      (* the literal 0 *)
  one : num;                       (* the literal 1 *)
  hundred : num;                   (* the literal 100 *)
  n999 : num;                      (* the literal 999 *)
  taxRate : num;                   (* the literal 0.08 *)
  add : num -> num -> num;
  sub : num -> num -> num;
  mul : num -> num -> num;
  div : num -> num -> num;
  math_min : num -> num -> num;    (* Math.min *)
  leb : num -> num -> bool;        (* a <= b *)
  ltb : num -> num -> bool;        (* a < b *)
  gtb : num -> num -> bool;        (* a > b *)
  strict_eqb : num -> num -> bool; (* a === b *)
  truthy : num -> bool             (* ToBoolean: false on 0, -0 and NaN *)
}.

(** Math.min on binary64: NaN if either argument is NaN, and -0 below +0. *)
Definition float_min (x y : float) : float :=
  if PrimFloat.is_nan x || PrimFloat.is_nan y then PrimFloat.nan
  else if PrimFloat.ltb x y then x
  else if PrimFloat.ltb y x then y
  else if PrimFloat.get_sign x then x else y.

#[export] Instance float_number : JsNumber float := {
  zero := 0%float;
  one := 1%float;
  hundred := 100%float;
  n999 := 999%float;
  taxRate := 0.08%float;
  add := PrimFloat.add;
  sub := PrimFloat.sub;
  mul := PrimFloat.mul;
  div := PrimFloat.div;
  math_min := float_min;
  leb := PrimFloat.leb;
  ltb := PrimFloat.ltb;
  gtb := fun a b => PrimFloat.ltb b a;
  strict_eqb := PrimFloat.eqb;
  truthy := fun x => negb (PrimFloat.is_nan x || PrimFloat.is_zero x)
}.

(** [a || b] on numbers. *)
Definition num_or {num} `{JsNumber num} (a b : num) : num :=
  if truthy a then a else b.

(** [a || b] on strings: the empty string is falsy. *)
Definition str_or (a b : string) : string :=
  if String.eqb a EmptyString then b else a.

(** ** Exceptions and the dispatch monad *)

(** What a block of statements does: it completes, or it throws an [Error]
    carrying a message. *)
Inductive outcome (A : Type) : Type :=
| Returned (a : A)
| Thrown (message : string).
Arguments Returned {A} a.
Arguments Thrown {A} message.

(** Statements that read and update a store [S] and may throw.  A throw keeps
    the updates made before it. *)
Definition Eff (S A : Type) : Type := S -> outcome A * S.

Definition ret {S A} (a : A) : Eff S A := fun s => (Returned a, s).

Definition throw {S A} (message : string) : Eff S A :=
  fun s => (Thrown message, s).

Definition bind {S A B} (m : Eff S A) (k : A -> Eff S B) : Eff S B :=
  fun s =>
    match m s with
    | (Returned a, s') => k a s'
    | (Thrown e, s') => (Thrown e, s')
    end.

Declare Scope eff_scope.
Delimit Scope eff_scope with eff.
Notation "x <- m ;; k" := (bind m (fun x => k))
  (at level 61, m at next level, right associativity) : eff_scope.
Notation "m ;;; k" := (bind m (fun _ => k))
  (at level 61, right associativity) : eff_scope.

(** [try { body } catch (error) { handler(error.message) }] *)
Definition try_catch {S A} (body : Eff S A) (handler : string -> Eff S A)
  : Eff S A :=
  fun s =>
    match body s with
    | (Returned a, s') => (Returned a, s')
    | (Thrown e, s') => handler e s'
    end.

(** [try { body } finally { cleanup }] *)
Definition try_finally {S A} (body : Eff S A) (cleanup : Eff S unit)
  : Eff S A :=
  fun s =>
    match body s with
    | (r, s') =>
        match cleanup s' with
        | (Returned _, s'') => (r, s'')
        | (Thrown e, s'') => (Thrown e, s'')
        end
    end.

(** [list.forEach(f)]: a callback that throws ends the loop. *)
Fixpoint forEach {S A} (f : A -> Eff S unit) (l : list A) : Eff S unit :=
  match l with
  | [] => ret tt
  | x :: r => (f x ;;; forEach f r)%eff
  end.

(** ** Data model (types/Cart.ts, types/Product.ts) *)

Section Cart.

Context {num : Type} `{JsNumber num}.

(** The fields of [Product] that the cart and its hooks read.
    [p_shipping_weight] is [product.shipping?.weight], [p_inventory_quantity]
    is [product.inventory.quantity], [p_categories] the names of
    [product.categories]; [p_isActive], [p_isInStock] and [p_featured] are
    the truth values of the fields of those names. *)
Record Product : Type := {
  p_id : string;
  p_name : string;
  p_shipping_weight : option num;
  p_inventory_quantity : num;
  p_categories : list string;
  p_featured : bool;
  p_isActive : bool;
  p_isInStock : bool
}.

(** [CartItem['variant']].  The hooks also read [variant.inventory], which the
    type of the cart does not declare: it is [None] on a variant object
    without that property. *)
Record Variant : Type := {
  v_id : string;
  v_name : string;
  v_sku : string;
  v_attributes : list (string * string);
  v_price : num;
  v_inventory : option num
}.

Record CartItem : Type := {
  id : string;
  productId : string;
  product : Product;
  variant : option Variant;
  quantity : num;
  price : num;
  total : num
}.

(** [Omit<CartItem, 'id' | 'total'>], the argument of [addItem]. *)
Record NewCartItem : Type := {
  n_productId : string;
  n_product : Product;
  n_variant : option Variant;
  n_quantity : num;
  n_price : num
}.

Record CartSummary : Type := {
  subtotal : num;
  taxAmount : num;
  shippingAmount : num;
  discountAmount : num;
  sum_total : num;
  itemCount : num;
  weight : num
}.

Inductive DiscountType : Type := percentage | fixed_amount | free_shipping.

Record CartDiscount : Type := {
  code : string;
  type : DiscountType;
  value : num;
  description : string;
  appliedAt : option string
}.

Record CartShipping : Type := {
  method : string;
  cost : num;
  estimatedDays : num;
  carrier : option string
}.

Record CartState : Type := {
  items : list CartItem;
  summary : CartSummary;
  discounts : list CartDiscount;
  shipping : option CartShipping;
  isInitialized : bool;
  isLoading : bool;
  error : option string
}.

(** Object spreads [{ ...state, field: v }]. *)
Definition with_items (s : CartState) (xs : list CartItem) : CartState :=
  {| items := xs; summary := summary s; discounts := discounts s;
     shipping := shipping s; isInitialized := isInitialized s;
     isLoading := isLoading s; error := error s |}.

Definition with_summary (s : CartState) (m : CartSummary) : CartState :=
  {| items := items s; summary := m; discounts := discounts s;
     shipping := shipping s; isInitialized := isInitialized s;
     isLoading := isLoading s; error := error s |}.

Definition with_discounts (s : CartState) (ds : list CartDiscount)
  : CartState :=
  {| items := items s; summary := summary s; discounts := ds;
     shipping := shipping s; isInitialized := isInitialized s;
     isLoading := isLoading s; error := error s |}.

Definition with_shipping (s : CartState) (sh : option CartShipping)
  : CartState :=
  {| items := items s; summary := summary s; discounts := discounts s;
     shipping := sh; isInitialized := isInitialized s;
     isLoading := isLoading s; error := error s |}.

Definition with_isInitialized (s : CartState) (b : bool) : CartState :=
  {| items := items s; summary := summary s; discounts := discounts s;
     shipping := shipping s; isInitialized := b;
     isLoading := isLoading s; error := error s |}.

Definition with_isLoading (s : CartState) (b : bool) : CartState :=
  {| items := items s; summary := summary s; discounts := discounts s;
     shipping := shipping s; isInitialized := isInitialized s;
     isLoading := b; error := error s |}.

Definition with_error (s : CartState) (e : option string) : CartState :=
  {| items := items s; summary := summary s; discounts := discounts s;
     shipping := shipping s; isInitialized := isInitialized s;
     isLoading := isLoading s; error := e |}.

(** [variant?.id], compared with [===]. *)
Definition variant_id (v : option Variant) : option string :=
  option_map v_id v.

Definition opt_string_eqb (a b : option string) : bool :=
  match a, b with
  | Some x, Some y => String.eqb x y
  | None, None => true
  | _, _ => false
  end.

(** [variant?.price || price] *)
Definition variant_price_or (v : option Variant) (p : num) : num :=
  match v with
  | Some w => num_or (v_price w) p
  | None => p
  end.

(** ** The context (context/CartContext) *)

Definition initialState : CartState :=
  {| items := [];
     summary := {| subtotal := zero; taxAmount := zero;
                   shippingAmount := zero; discountAmount := zero;
                   sum_total := zero; itemCount := zero; weight := zero |};
     discounts := [];
     shipping := None;
     isInitialized := false;
     isLoading := false;
     error := None |}.

Inductive CartAction : Type :=
| INITIALIZE_CART (payload : CartState)
| SET_LOADING (payload : bool)
| SET_ERROR (payload : option string)
| ADD_ITEM (payload : CartItem)
| REMOVE_ITEM (payload : string)
| UPDATE_QUANTITY (payload_id : string) (payload_quantity : num)
| CLEAR_CART
| APPLY_DISCOUNT (payload : CartDiscount)
| REMOVE_DISCOUNT (payload : string)
| SET_SHIPPING (payload : CartShipping)
| CALCULATE_SUMMARY.

(** [Array.prototype.findIndex]; [None] stands for -1. *)
Fixpoint findIndex {A} (p : A -> bool) (l : list A) : option nat :=
  match l with
  | [] => None
  | x :: r => if p x then Some 0 else option_map S (findIndex p r)
  end.

(** [Array.prototype.map] with the callback's index argument. *)
Fixpoint map_index_from {A B} (f : A -> nat -> B) (l : list A) (i : nat)
  : list B :=
  match l with
  | [] => []
  | x :: r => f x i :: map_index_from f r (S i)
  end.

Definition map_index {A B} (f : A -> nat -> B) (l : list A) : list B :=
  map_index_from f l 0.

Definition is_free_shipping (d : CartDiscount) : bool :=
  match type d with free_shipping => true | _ => false end.

(** One round of the [discounts.forEach] callback on the two [let]
    variables [(discountAmount, shippingAmount)]. *)
Definition apply_one (sub_total : num) (acc : num * num) (discount : CartDiscount)
  : num * num :=
  let (discountAmt, shippingAmt) := acc in
  match type discount with
  | percentage =>
      (add discountAmt (div (mul sub_total (value discount)) hundred),
       shippingAmt)
  | fixed_amount =>
      (add discountAmt (math_min (value discount) sub_total), shippingAmt)
  | free_shipping => (discountAmt, zero)
  end.

Definition calculateCartSummary (its : list CartItem)
  (ds : list CartDiscount) (sh : option CartShipping) : CartSummary :=
  let sub_total := fold_left (fun sum item => add sum (total item)) its zero in
  let count := fold_left (fun sum item => add sum (quantity item)) its zero in
  let wt :=
    fold_left
      (fun sum item =>
         let itemWeight :=
           match p_shipping_weight (product item) with
           | Some w => num_or w zero
           | None => zero
           end in
         add sum (mul itemWeight (quantity item)))
      its zero in
  let shipping0 :=
    match sh with
    | Some s => num_or (cost s) zero
    | None => zero
    end in
  let (discountAmt, shippingAmt) :=
    fold_left (apply_one sub_total) ds (zero, shipping0) in
  let taxableAmount := sub sub_total discountAmt in
  let tax := mul taxableAmount taxRate in
  let tot := add (add taxableAmount tax) shippingAmt in
  {| subtotal := sub_total;
     taxAmount := tax;
     shippingAmount := shippingAmt;
     discountAmount := discountAmt;
     sum_total := tot;
     itemCount := count;
     weight := wt |}.

Definition cartReducer (state : CartState) (action : CartAction) : CartState :=
  match action with
  | INITIALIZE_CART payload => with_isInitialized payload true
  | SET_LOADING payload => with_isLoading state payload
  | SET_ERROR payload => with_error state payload
  | ADD_ITEM payload =>
      let existingItemIndex :=
        findIndex
          (fun item =>
             String.eqb (productId item) (productId payload)
             && opt_string_eqb (variant_id (variant item))
                               (variant_id (variant payload)))
          (items state) in
      let newItems :=
        match existingItemIndex with
        | Some i =>
            map_index
              (fun item index =>
                 if Nat.eqb index i then
                   {| id := id item; productId := productId item;
                      product := product item; variant := variant item;
                      quantity := add (quantity item) (quantity payload);
                      price := price item;
                      total :=
                        mul (add (quantity item) (quantity payload))
                            (variant_price_or (variant payload) (price item))
                   |}
                 else item)
              (items state)
        | None => items state ++ [payload]
        end in
      with_items state newItems
  | REMOVE_ITEM payload =>
      with_items state
        (filter (fun item => negb (String.eqb (id item) payload))
                (items state))
  | UPDATE_QUANTITY pid qty =>
      if leb qty zero then
        with_items state
          (filter (fun item => negb (String.eqb (id item) pid)) (items state))
      else
        with_items state
          (map
             (fun item =>
                if String.eqb (id item) pid then
                  {| id := id item; productId := productId item;
                     product := product item; variant := variant item;
                     quantity := qty;
                     price := price item;
                     total :=
                       mul qty (variant_price_or (variant item) (price item))
                  |}
                else item)
             (items state))
  | CLEAR_CART =>
      with_shipping (with_discounts (with_items state []) []) None
  | APPLY_DISCOUNT payload =>
      with_discounts state
        (filter (fun d => negb (String.eqb (code d) (code payload)))
                (discounts state)
         ++ [payload])
  | REMOVE_DISCOUNT payload =>
      with_discounts state
        (filter (fun d => negb (String.eqb (code d) payload))
                (discounts state))
  | SET_SHIPPING payload => with_shipping state (Some payload)
  | CALCULATE_SUMMARY =>
      with_summary state
        (calculateCartSummary (items state) (discounts state)
           (shipping state))
  end.

(** *** The provider: dispatch, effects and the operations of the context *)

Definition CART_STORAGE_KEY : string := "onicommerce-cart".

(** [dispatch(action)]: the reducer runs on the store. *)
Definition dispatch (action : CartAction) : Eff CartState unit :=
  fun s => (Returned tt, cartReducer s action).

(** Reading the current store ([cart.cart] in the hook). *)
Definition get_cart : Eff CartState CartState := fun s => (Returned s, s).

(** The store a block of statements leaves behind. *)
Definition exec {A} (m : Eff CartState A) (s : CartState) : CartState :=
  snd (m s).

Definition lift_outcome {S A} (o : outcome A) : Eff S A :=
  fun s => (o, s).

(** The first effect of [CartProvider]: it runs after a render in which
    items, discounts, shipping or isInitialized changed. *)
Definition summaryEffect : Eff CartState unit :=
  fun s =>
    if isInitialized s then dispatch CALCULATE_SUMMARY s else ret tt s.

(** The item id [`${productId}-${variant?.id || 'default'}`]. *)
Definition item_id (pid : string) (v : option Variant) : string :=
  pid ++ "-" ++
  match v with
  | Some w => str_or (v_id w) "default"
  | None => "default"
  end.

Definition addItem (item : NewCartItem) : Eff CartState unit :=
  let cartItem :=
    {| id := item_id (n_productId item) (n_variant item);
       productId := n_productId item;
       product := n_product item;
       variant := n_variant item;
       quantity := n_quantity item;
       price := n_price item;
       total :=
         mul (n_quantity item)
             (variant_price_or (n_variant item) (n_price item)) |} in
  dispatch (ADD_ITEM cartItem).

Definition removeItem (itemId : string) : Eff CartState unit :=
  dispatch (REMOVE_ITEM itemId).

Definition updateQuantity (itemId : string) (qty : num)
  : Eff CartState unit :=
  dispatch (UPDATE_QUANTITY itemId qty).

Definition clearCart : Eff CartState unit := dispatch CLEAR_CART.

Definition applyDiscount (discount : CartDiscount) : Eff CartState unit :=
  dispatch (APPLY_DISCOUNT discount).

Definition removeDiscount (c : string) : Eff CartState unit :=
  dispatch (REMOVE_DISCOUNT c).

Definition setShippingMethod (sh : CartShipping) : Eff CartState unit :=
  dispatch (SET_SHIPPING sh).

Definition calculateSummary : Eff CartState unit :=
  dispatch CALCULATE_SUMMARY.

(** The mutating operations of [CartContextType], as a caller names them. *)
Inductive CartOperation : Type :=
| AddItem (item : NewCartItem)
| RemoveItem (itemId : string)
| UpdateQuantity (itemId : string) (qty : num)
| ClearCart
| ApplyDiscount (discount : CartDiscount)
| RemoveDiscount (c : string)
| SetShippingMethod (sh : CartShipping).

Definition call (op : CartOperation) : Eff CartState unit :=
  match op with
  | AddItem item => addItem item
  | RemoveItem itemId => removeItem itemId
  | UpdateQuantity itemId qty => updateQuantity itemId qty
  | ClearCart => clearCart
  | ApplyDiscount discount => applyDiscount discount
  | RemoveDiscount c => removeDiscount c
  | SetShippingMethod sh => setShippingMethod sh
  end.

(** The store that the render following a call reads. *)
Definition rendered (op : CartOperation) (s : CartState) : CartState :=
  exec (call op) s.

(** The store once the summary effect of that render has run. *)
Definition settled (op : CartOperation) (s : CartState) : CartState :=
  exec summaryEffect (rendered op s).

(** The second effect of [CartProvider]: load the cart from localStorage.

    [JSON.parse] returns whatever the stored text denotes.  The effect hands
    it to [INITIALIZE_CART] unchecked, so the value need not be a cart:
    [ParsedOther] stands for valid JSON of any other shape ([null], [{}], a
    number, an object without the fields of a cart), kept by its text and
    by the truth value of its [isLoading] property. *)
Inductive Parsed : Type :=
| ParsedCart (cartData : CartState)
| ParsedOther (json : string) (loading : bool).

(** What the store holds: a cart, or the spread of such a value, of which
    only the two flags the reducer writes are known. *)
Inductive Store : Type :=
| StoreCart (state : CartState)
| StoreOther (json : string) (initialized loading : bool).



(** [dispatch({ type: 'SET_LOADING', payload })]:
    [{ ...state, isLoading: payload }]. *)
Definition dispatch_SET_LOADING (payload : bool) : Eff Store unit :=
  fun st =>
    (Returned tt,
     match st with
     | StoreCart state => StoreCart (cartReducer state (SET_LOADING payload))
     | StoreOther json initialized _ => StoreOther json initialized payload
     end).

(** [dispatch({ type: 'INITIALIZE_CART', payload })]:
    [{ ...payload, isInitialized: true }], whatever the store was. *)
Definition dispatch_INITIALIZE_CART (payload : Parsed) : Eff Store unit :=
  fun st =>
    (Returned tt,
     match payload with
     | ParsedCart cartData =>
         match st with
         | StoreCart state =>
             StoreCart (cartReducer state (INITIALIZE_CART cartData))
         | StoreOther _ _ _ => StoreCart (with_isInitialized cartData true)
         end
     | ParsedOther json loading => StoreOther json true loading
     end).

Definition loadEffect (JSON_parse : string -> outcome Parsed)
  (localStorage : string -> option string) : Eff Store unit :=
  (try_finally
     (try_catch
        (dispatch_SET_LOADING true ;;;
         match localStorage CART_STORAGE_KEY with
         | Some savedCart =>
             if String.eqb savedCart EmptyString then
               dispatch_INITIALIZE_CART (ParsedCart initialState)
             else
               cartData <- lift_outcome (JSON_parse savedCart) ;;
               dispatch_INITIALIZE_CART cartData
         | None => dispatch_INITIALIZE_CART (ParsedCart initialState)
         end)
        (fun _ => dispatch_INITIALIZE_CART (ParsedCart initialState)))
     (dispatch_SET_LOADING false))%eff.

(** The cart a fresh provider holds once it has loaded from an empty
    storage. *)
Definition emptyCart : CartState :=
  match snd (loadEffect (fun _ => Thrown "unreadable") (fun _ => None)
               (StoreCart initialState)) with
  | StoreCart state => state
  | StoreOther _ _ _ => initialState
  end.

(** *** The enhanced hook (hooks/useCartEnhanced) *)

(** [cart.cart.error = message]: the hook writes the field of the store
    object itself. *)
Definition assign_error (message : string) : Eff CartState unit :=
  fun s => (Returned tt, with_error s (Some message)).

Definition is_percentage (d : CartDiscount) : bool :=
  match type d with percentage => true | _ => false end.

Definition applyDiscountSafely (discount : CartDiscount)
  : Eff CartState unit :=
  (try_catch
     (cart <- get_cart ;;
      (if existsb (fun d => String.eqb (code d) (code discount))
                  (discounts cart)
       then throw "Discount code already applied" else ret tt) ;;;
      (if leb (value discount) zero
       then throw "Discount value must be greater than 0" else ret tt) ;;;
      (if is_percentage discount && gtb (value discount) hundred
       then throw "Percentage discount cannot exceed 100%" else ret tt) ;;;
      applyDiscount discount)
     (fun message => assign_error message))%eff.

(** *** Reading the cart (the getters of [CartContextType]) *)

Definition same_line (pid : string) (variantId : option string)
  (item : CartItem) : bool :=
  String.eqb (productId item) pid
  && opt_string_eqb (variant_id (variant item)) variantId.

Definition isInCart (pid : string) (variantId : option string)
  (state : CartState) : bool :=
  existsb (same_line pid variantId) (items state).

(** [find(...) || null]: a line is an object, hence truthy. *)
Definition getCartItem (pid : string) (variantId : option string)
  (state : CartState) : option CartItem :=
  find (same_line pid variantId) (items state).

Definition getTotalWeight (state : CartState) : num := weight (summary state).

Definition getTotalItems (state : CartState) : num :=
  itemCount (summary state).

(** [syncWithServer]: the body only logs. *)
Definition syncWithServer : Eff CartState unit :=
  (try_finally
     (try_catch
        (dispatch (SET_LOADING true))
        (fun _ =>
           dispatch (SET_ERROR (Some "Failed to sync cart with server"))))
     (dispatch (SET_LOADING false)))%eff.

(** *** The third effect of [CartProvider]: saving to localStorage *)

Definition Storage : Type := string -> option string.

(** [localStorage.setItem(key, text)] *)
Definition setItem (key text : string) (st : Storage) : Storage :=
  fun k => if String.eqb k key then Some text else st k.

(** [JSON_stringify] is JSON.stringify read at type [CartState]; when it
    throws, the effect logs and writes nothing.  [setItem] itself is taken
    to succeed. *)
Definition saveEffect (JSON_stringify : CartState -> outcome string)
  (state : CartState) (st : Storage) : Storage :=
  if isInitialized state then
    match JSON_stringify (with_error state None) with
    | Returned text => setItem CART_STORAGE_KEY text st
    | Thrown _ => st
    end
  else st.

(** *** The other operations of the enhanced hook *)

Definition has_id (itemId : string) (item : CartItem) : bool :=
  String.eqb (id item) itemId.

(** [item.product.isInStock || (item.variant && (item.variant.inventory || 0) > 0)] *)
Definition new_item_in_stock (item : NewCartItem) : bool :=
  p_isInStock (n_product item)
  || match n_variant item with
     | Some w =>
         gtb (match v_inventory w with
              | Some n => num_or n zero
              | None => zero
              end) zero
     | None => false
     end.

Definition addItemSafely (item : NewCartItem) : Eff CartState unit :=
  (try_catch
     ((if leb (n_quantity item) zero
       then throw "Quantity must be greater than 0" else ret tt) ;;;
      (if negb (p_isActive (n_product item))
       then throw "Product is not available" else ret tt) ;;;
      (if negb (new_item_in_stock item)
       then throw "Product is out of stock" else ret tt) ;;;
      addItem item)
     (fun message => assign_error message))%eff.

(** [item.variant?.inventory || item.product.inventory.quantity || 999] *)
Definition maxQuantity (item : CartItem) : num :=
  num_or
    (match variant item with
     | Some w =>
         match v_inventory w with
         | Some n => num_or n (p_inventory_quantity (product item))
         | None => p_inventory_quantity (product item)
         end
     | None => p_inventory_quantity (product item)
     end)
    n999.

Section Messages.

(** The text of a number inside a template literal. *)
Variable number_toString : num -> string.

(** The body of [updateQuantitySafely] in a render whose [cart.cart] is
    [cart]: the lookup reads that render's items, the dispatches reach the
    store. *)
Definition updateQuantitySafely_in (cart : CartState) (itemId : string)
  (qty : num) : Eff CartState unit :=
  (try_catch
     ((if ltb qty zero
       then throw "Quantity cannot be negative" else ret tt) ;;;
      match find (has_id itemId) (items cart) with
      | None => throw "Item not found in cart"
      | Some item =>
          if strict_eqb qty zero then removeItem itemId
          else if gtb qty (maxQuantity item) then
            throw ("Only " ++ number_toString (maxQuantity item)
                   ++ " items available in stock")%string
          else updateQuantity itemId qty
      end)
     (fun message => assign_error message))%eff.

(** One call, made in a render of the current store. *)
Definition updateQuantitySafely (itemId : string) (qty : num)
  : Eff CartState unit :=
  (cart <- get_cart ;; updateQuantitySafely_in cart itemId qty)%eff.

(** Every call of the loop is made in the same render. *)
Definition updateMultipleQuantities (updates : list (string * num))
  : Eff CartState unit :=
  (cart <- get_cart ;;
   forEach (fun u => updateQuantitySafely_in cart (fst u) (snd u)) updates)%eff.

(** [useCartItem(itemId)] *)
Definition increaseQuantity (itemId : string) : Eff CartState unit :=
  (cart <- get_cart ;;
   match find (has_id itemId) (items cart) with
   | Some item => updateQuantitySafely itemId (add (quantity item) one)
   | None => ret tt
   end)%eff.

Definition decreaseQuantity (itemId : string) : Eff CartState unit :=
  (cart <- get_cart ;;
   match find (has_id itemId) (items cart) with
   | Some item =>
       if gtb (quantity item) one
       then updateQuantitySafely itemId (sub (quantity item) one)
       else ret tt
   | None => ret tt
   end)%eff.

(** The messages [validateCart] pushes for one line. *)
Definition item_errors (item : CartItem) : list string :=
  (if negb (p_isActive (product item))
   then [(p_name (product item) ++ " is no longer available")%string]
   else [])
  ++ (if negb (p_isInStock (product item))
      then [(p_name (product item) ++ " is out of stock")%string]
      else [])
  ++ match variant item with
     | Some w =>
         match v_inventory w with
         | Some n =>
             if ltb n (quantity item)
             then [("Only " ++ number_toString n ++ " "
                    ++ p_name (product item) ++ " (" ++ v_name w
                    ++ ") available")%string]
             else []
         | None => []
         end
     | None => []
     end.

(** [validateCart()]: the pair [(isValid, errors)]. *)
Definition validateCart (state : CartState) : bool * list string :=
  let errors := flat_map item_errors (items state) in
  (Nat.eqb (List.length errors) 0, errors).

End Messages.

Definition removeItemSafely (itemId : string) : Eff CartState unit :=
  (try_catch
     (cart <- get_cart ;;
      match find (has_id itemId) (items cart) with
      | None => throw "Item not found in cart"
      | Some _ => removeItem itemId
      end)
     (fun message => assign_error message))%eff.

Definition clearCartSafely : Eff CartState unit :=
  (try_catch
     (cart <- get_cart ;;
      if Nat.eqb (List.length (items cart)) 0
      then throw "Cart is already empty" else clearCart)
     (fun message => assign_error message))%eff.

Definition addMultipleItems (batch : list NewCartItem)
  : Eff CartState unit :=
  forEach addItemSafely batch.

(** [featuredItems] and [outOfStockItems] *)
Definition featuredItems (state : CartState) : list CartItem :=
  filter (fun item => p_featured (product item)) (items state).

Definition outOfStockItems (state : CartState) : list CartItem :=
  filter (fun item => negb (p_isInStock (product item))) (items state).

(** [getCartAnalytics().mostExpensiveItem] and [.cheapestItem]: a reduce
    seeded with [items[0]], which is undefined on the empty cart. *)
Definition mostExpensiveItem (state : CartState) : option CartItem :=
  match items state with
  | [] => None
  | first :: _ =>
      Some (fold_left
              (fun max item => if gtb (price item) (price max) then item else max)
              (items state) first)
  end.

Definition cheapestItem (state : CartState) : option CartItem :=
  match items state with
  | [] => None
  | first :: _ =>
      Some (fold_left
              (fun min item => if ltb (price item) (price min) then item else min)
              (items state) first)
  end.

(** [useCartDiscounts().clearAllDiscounts]: the list is read once, then one
    [removeDiscount] per entry. *)
Definition clearAllDiscounts : Eff CartState unit :=
  (cart <- get_cart ;;
   forEach (fun d => removeDiscount (code d)) (discounts cart))%eff.

(** ** Notions the statements below use *)

(** The summary is the one computed from the lists of the same state. *)
Definition summary_consistent (s : CartState) : Prop :=
  summary s = calculateCartSummary (items s) (discounts s) (shipping s).

(** The unit price the code multiplies by: [variant?.price || price]. *)
Definition unitPrice (item : CartItem) : num :=
  variant_price_or (variant item) (price item).

Definition line_ok (item : CartItem) : Prop :=
  total item = mul (quantity item) (unitPrice item).



(** A sequence of calls, the summary effect running after each. *)
Definition run (ops : list CartOperation) (s : CartState) : CartState :=
  fold_left (fun st op => settled op st) ops s.



(** The key [ADD_ITEM] merges on. *)
Definition item_key (item : CartItem) : string * option string :=
  (productId item, variant_id (variant item)).

(** [shipping?.cost || 0], the shipping amount before the discounts. *)
Definition selected_cost (sh : option CartShipping) : num :=
  match sh with
  | Some s => num_or (cost s) zero
  | None => zero
  end.

(** The subtotal: the sum of the lines' totals, from 0, left to right. *)
Definition sum_totals (its : list CartItem) : num :=
  fold_left (fun sum item => add sum (total item)) its zero.

(** An item [addItemSafely] passes on to [addItem]. *)
Definition acceptable (item : NewCartItem) : bool :=
  negb (leb (n_quantity item) zero)
  && p_isActive (n_product item)
  && new_item_in_stock item.

(** A line [validateCart] pushes no message for. *)
Definition line_valid (item : CartItem) : bool :=
  p_isActive (product item)
  && p_isInStock (product item)
  && match variant item with
     | Some w =>
         match v_inventory w with
         | Some n => negb (ltb n (quantity item))
         | None => true
         end
     | None => true
     end.

(** What one discount adds to [discountAmount]: nothing for free_shipping,
    else an amount that depends on the subtotal and the discount alone. *)
Definition contribution (sub_total : num) (discount : CartDiscount)
  : list num :=
  match type discount with
  | percentage => [div (mul sub_total (value discount)) hundred]
  | fixed_amount => [math_min (value discount) sub_total]
  | free_shipping => []
  end.

(** A discount [applyDiscountSafely] refuses. *)
Definition refused (discount : CartDiscount) (s : CartState) : bool :=
  existsb (fun d => String.eqb (code d) (code discount)) (discounts s)
  || leb (value discount) zero
  || (is_percentage discount && gtb (value discount) hundred).

End Cart.

(** ** Sample carts, on binary64 *)

Definition shirt : Product (num := float) :=
  {| p_id := "p1"; p_name := "Shirt"; p_shipping_weight := Some 0.5%float;
     p_inventory_quantity := 10%float; p_categories := ["Clothing"];
     p_featured := false; p_isActive := true; p_isInStock := true |}.

Definition two_shirts : NewCartItem :=
  {| n_productId := "p1"; n_product := shirt; n_variant := None;
     n_quantity := 2%float; n_price := 20%float |}.

Definition three_shirts : NewCartItem :=
  {| n_productId := "p1"; n_product := shirt; n_variant := None;
     n_quantity := 3%float; n_price := 20%float |}.

(** The line [addItem] builds from [two_shirts]. *)
Definition shirt_line : CartItem :=
  {| id := "p1-default"; productId := "p1"; product := shirt;
     variant := None; quantity := 2%float; price := 20%float;
     total := 40%float |}.

Definition ten_percent : CartDiscount (num := float) :=
  {| code := "TEN"; type := percentage; value := 10%float;
     description := "10% off"; appliedAt := None |}.

Definition all_off : CartDiscount (num := float) :=
  {| code := "ALL"; type := percentage; value := 100%float;
     description := "100% off"; appliedAt := None |}.

Definition ten_off : CartDiscount (num := float) :=
  {| code := "MINUS10"; type := fixed_amount; value := 10%float;
     description := "10 off"; appliedAt := None |}.

Definition fixed_off (c : string) (v : float) : CartDiscount :=
  {| code := c; type := fixed_amount; value := v;
     description := "fixed"; appliedAt := None |}.

Definition ship_free : CartDiscount (num := float) :=
  {| code := "SHIP"; type := free_shipping; value := 1%float;
     description := "free shipping"; appliedAt := None |}.

Definition courier (c : float) : CartShipping :=
  {| method := "courier"; cost := c; estimatedDays := 2%float;
     carrier := None |}.



(** A line whose total is 0.5, for sums of small fixed discounts. *)
Definition half_line : CartItem :=
  {| id := "p1-default"; productId := "p1"; product := shirt;
     variant := None; quantity := 1%float; price := 0.5%float;
     total := 0.5%float |}.

Definition too_much : CartDiscount (num := float) :=
  {| code := "BIG"; type := percentage; value := 150%float;
     description := "150% off"; appliedAt := None |}.

(** A line of one shirt at a given price, and a cart of three such lines. *)
Definition priced_line (i : string) (p : float) : CartItem :=
  {| id := i; productId := i; product := shirt; variant := None;
     quantity := 1%float; price := p; total := p |}.

Definition three_prices : CartState :=
  with_items emptyCart
    [priced_line "a" 5; priced_line "b" 9; priced_line "c" 2].


(** ** Facts shared by the statements below *)

Unset Implicit Arguments.

Section CartFacts.

Context {num : Type} `{JsNumber num}.

Lemma emptyCart_eq :
  emptyCart = with_isLoading (with_isInitialized initialState true) false.
Proof. reflexivity. Qed.

Lemma summaryEffect_frame (s : CartState) :
  items (exec summaryEffect s) = items s
  /\ discounts (exec summaryEffect s) = discounts s
  /\ shipping (exec summaryEffect s) = shipping s
  /\ isInitialized (exec summaryEffect s) = isInitialized s
  /\ isLoading (exec summaryEffect s) = isLoading s
  /\ error (exec summaryEffect s) = error s.
Proof.
  unfold exec, summaryEffect.
  destruct (isInitialized s) eqn:E; simpl; rewrite ?E; tauto.
Qed.

Lemma settled_items (op : CartOperation) (s : CartState) :
  items (settled op s) = items (rendered op s).
Proof. unfold settled. apply summaryEffect_frame. Qed.

Lemma settled_discounts (op : CartOperation) (s : CartState) :
  discounts (settled op s) = discounts (rendered op s).
Proof. unfold settled. apply summaryEffect_frame. Qed.

Lemma settled_shipping (op : CartOperation) (s : CartState) :
  shipping (settled op s) = shipping (rendered op s).
Proof. unfold settled. apply summaryEffect_frame. Qed.

Lemma rendered_summary (op : CartOperation) (s : CartState) :
  summary (rendered op s) = summary s.
Proof.
  destruct op; try reflexivity.
  unfold rendered, exec; simpl. destruct (leb qty zero); reflexivity.
Qed.

Lemma rendered_isInitialized (op : CartOperation) (s : CartState) :
  isInitialized (rendered op s) = isInitialized s.
Proof.
  destruct op; try reflexivity.
  unfold rendered, exec; simpl. destruct (leb qty zero); reflexivity.
Qed.

Lemma settled_isInitialized (op : CartOperation) (s : CartState) :
  isInitialized (settled op s) = isInitialized s.
Proof.
  unfold settled.
  destruct (summaryEffect_frame (rendered op s)) as (_ & _ & _ & E & _).
  rewrite E. apply rendered_isInitialized.
Qed.

Lemma summaryEffect_consistent (s : CartState) :
  isInitialized s = true -> summary_consistent (exec summaryEffect s).
Proof.
  intros E. unfold summary_consistent, exec, summaryEffect.
  rewrite E. reflexivity.
Qed.

Lemma run_isInitialized (ops : list CartOperation) (s : CartState) :
  isInitialized (run ops s) = isInitialized s.
Proof.
  revert s. induction ops as [|op ops IH]; intros s; [reflexivity|].
  unfold run in *. simpl. rewrite IH. apply settled_isInitialized.
Qed.

Lemma update_as_remove (itemId : string) (q : num) (s : CartState) :
  leb q zero = true -> updateQuantity itemId q s = removeItem itemId s.
Proof.
  intros E. unfold updateQuantity, removeItem, dispatch. simpl.
  rewrite E. reflexivity.
Qed.

(** C1 (amended): on an initialized store, a public operation leaves the
    summary it found, and the summary effect that follows the render makes
    the summary the one computed from the items, discounts and shipping of
    the state, which it leaves as the operation made them. *)
Theorem summary_consistent_once_settled (op : CartOperation) (s : CartState) :
  isInitialized s = true ->
  summary (rendered op s) = summary s
  /\ summary_consistent (settled op s)
  /\ items (settled op s) = items (rendered op s)
  /\ discounts (settled op s) = discounts (rendered op s)
  /\ shipping (settled op s) = shipping (rendered op s).
Proof.
  intros E. split; [apply rendered_summary|]. split.
  - unfold settled. apply summaryEffect_consistent.
    rewrite rendered_isInitialized. exact E.
  - auto using settled_items, settled_discounts, settled_shipping.
Qed.

(** C6: [updateQuantity(id, q)] with [q <= 0] returns the same outcome and
    leaves the same store as [removeItem(id)], for every store. *)
Theorem updateQuantity_nonpositive_is_removeItem
  (itemId : string) (q : num) (s : CartState) :
  leb q zero = true -> updateQuantity itemId q s = removeItem itemId s.
Proof. apply update_as_remove. Qed.

Lemma refused_message (discount : CartDiscount) (s : CartState) :
  refused discount s = true ->
  exists message,
    In message ["Discount code already applied";
                "Discount value must be greater than 0";
                "Percentage discount cannot exceed 100%"]
    /\ applyDiscountSafely discount s
       = (Returned tt, with_error s (Some message)).
Proof.
  unfold refused, applyDiscountSafely, try_catch, bind, get_cart, assign_error.
  intros R.
  destruct (existsb _ (discounts s)) eqn:E1; simpl.
  { eexists; split; [|reflexivity]. simpl; auto. }
  destruct (leb (value discount) zero) eqn:E2; simpl.
  { eexists; split; [|reflexivity]. simpl; auto. }
  simpl in R. rewrite R. simpl.
  eexists; split; [|reflexivity]. simpl; auto.
Qed.

(** C8: a discount whose code is already applied, whose value is [<= 0], or
    which is a percentage above 100 makes [applyDiscountSafely] return
    normally with the reason in the error field; items, discounts, shipping
    and summary stay as they were. *)
Theorem applyDiscountSafely_rejects (discount : CartDiscount) (s : CartState) :
  existsb (fun d => String.eqb (code d) (code discount)) (discounts s) = true
  \/ leb (value discount) zero = true
  \/ (type discount = percentage /\ gtb (value discount) hundred = true) ->
  exists message s',
    applyDiscountSafely discount s = (Returned tt, s')
    /\ In message ["Discount code already applied";
                   "Discount value must be greater than 0";
                   "Percentage discount cannot exceed 100%"]
    /\ error s' = Some message
    /\ items s' = items s
    /\ discounts s' = discounts s
    /\ shipping s' = shipping s
    /\ summary s' = summary s.
Proof.
  intros R.
  assert (R' : refused discount s = true).
  { unfold refused, is_percentage.
    destruct R as [R | [R | [R1 R2]]]; rewrite ?R, ?R1, ?R2; simpl;
      rewrite ?orb_true_r; reflexivity. }
  destruct (refused_message _ _ R') as (message & M & E).
  exists message, (with_error s (Some message)).
  repeat split; auto.
Qed.

(** What the load effect leaves, case by case. *)
Lemma loadEffect_store
  (JSON_parse : string -> outcome Parsed)
  (localStorage : string -> option string) (st0 : Store) :
  loadEffect JSON_parse localStorage st0
  = (Returned tt,
     match localStorage CART_STORAGE_KEY with
     | Some savedCart =>
         if String.eqb savedCart EmptyString then StoreCart emptyCart
         else match JSON_parse savedCart with
              | Returned (ParsedCart cartData) =>
                  StoreCart (with_isLoading (with_isInitialized cartData true)
                                            false)
              | Returned (ParsedOther json _) => StoreOther json true false
              | Thrown _ => StoreCart emptyCart
              end
     | None => StoreCart emptyCart
     end).
Proof.
  unfold loadEffect, try_finally, try_catch, bind, lift_outcome,
    dispatch_SET_LOADING, dispatch_INITIALIZE_CART.
  destruct (localStorage CART_STORAGE_KEY) as [savedCart|]; simpl.
  - destruct (String.eqb savedCart EmptyString); simpl.
    + destruct st0; reflexivity.
    + destruct (JSON_parse savedCart) as [[cartData|json loading]|e]; simpl;
        destruct st0; reflexivity.
  - destruct st0; reflexivity.
Qed.


End CartFacts.

(** ** Lists: [findIndex] and [map] with an index *)

Lemma map_index_from_other {A} (g : A -> A) (j : nat) (l : list A) :
  forall k, j < k ->
  map_index_from (fun item index => if Nat.eqb index j then g item else item)
                 l k = l.
Proof.
  induction l as [|x l IH]; intros k L; simpl; [reflexivity|].
  destruct (Nat.eqb_spec k j) as [E|_]; [lia|].
  f_equal. apply IH. lia.
Qed.

Lemma findIndex_None {A} (p : A -> bool) (l : list A) :
  findIndex p l = None -> forall x, In x l -> p x = false.
Proof.
  induction l as [|a l IH]; simpl; intros E x I; [contradiction|].
  destruct (p a) eqn:P; [discriminate|].
  destruct (findIndex p l); [discriminate|].
  destruct I as [<-|I]; auto.
Qed.

(** The line [findIndex] points at is the first that satisfies the test, and
    the indexed [map] rewrites that line only. *)
Lemma map_index_at {A} (p : A -> bool) (g : A -> A) (l : list A) :
  forall i k, findIndex p l = Some i ->
  exists l1 x l2,
    l = l1 ++ x :: l2 /\ p x = true /\ (forall y, In y l1 -> p y = false)
    /\ map_index_from
         (fun item index => if Nat.eqb index (k + i) then g item else item)
         l k = l1 ++ g x :: l2.
Proof.
  induction l as [|a l IH]; intros i k E; simpl in E; [discriminate|].
  destruct (p a) eqn:P.
  - injection E as <-. exists [], a, l. simpl.
    rewrite Nat.add_0_r, Nat.eqb_refl.
    repeat split; auto; [contradiction|].
    f_equal. apply map_index_from_other. lia.
  - destruct (findIndex p l) as [i'|] eqn:F; [|discriminate].
    injection E as <-.
    destruct (IH i' (S k) eq_refl) as (l1 & x & l2 & -> & Px & N & M).
    exists (a :: l1), x, l2. simpl.
    repeat split; auto.
    + intros y [<-|I]; auto.
    + destruct (Nat.eqb_spec k (k + S i')) as [E|_]; [lia|].
      f_equal. rewrite Nat.add_succ_r. exact M.
Qed.

Lemma fold_left_permutation {A B} (f : A -> B -> A) :
  (forall a x y, f (f a x) y = f (f a y) x) ->
  forall l1 l2, Permutation l1 l2 ->
  forall a, fold_left f l1 a = fold_left f l2 a.
Proof.
  intros C l1 l2 P.
  induction P as [|x l l' _ IH|x y l|l l' l'' _ IH1 _ IH2]; intros a; simpl.
  - reflexivity.
  - apply IH.
  - rewrite C. reflexivity.
  - rewrite IH1. apply IH2.
Qed.

Lemma opt_string_eqb_refl (a : option string) : opt_string_eqb a a = true.
Proof. destruct a; simpl; [apply String.eqb_refl|reflexivity]. Qed.

Lemma opt_string_eqb_eq (a b : option string) :
  opt_string_eqb a b = true <-> a = b.
Proof.
  destruct a, b; simpl; split; intros E; try discriminate; try reflexivity.
  - apply String.eqb_eq in E. congruence.
  - injection E as ->. apply String.eqb_refl.
Qed.

(** ** The calculator and the reducer *)

Section ReducerFacts.

Context {num : Type} `{JsNumber num}.

(** The fields of the summary, read off the two folded variables. *)
Lemma summary_fields (its : list CartItem) (ds : list CartDiscount)
  (sh : option CartShipping) :
  let r := fold_left (apply_one (sum_totals its)) ds (zero, selected_cost sh) in
  let m := calculateCartSummary its ds sh in
  subtotal m = sum_totals its
  /\ discountAmount m = fst r
  /\ shippingAmount m = snd r
  /\ taxAmount m = mul (sub (sum_totals its) (fst r)) taxRate
  /\ sum_total m
     = add (add (sub (sum_totals its) (fst r))
                (mul (sub (sum_totals its) (fst r)) taxRate))
           (snd r)
  /\ itemCount m = fold_left (fun sum item => add sum (quantity item)) its zero
  /\ itemCount m = itemCount (calculateCartSummary its [] None)
  /\ weight m = weight (calculateCartSummary its [] None).
Proof.
  unfold calculateCartSummary, sum_totals, selected_cost. simpl.
  destruct (fold_left _ ds _) as [discountAmt shippingAmt]. simpl.
  repeat split.
Qed.

Lemma fold_shipping (st : num) (ds : list CartDiscount) :
  forall a b,
    snd (fold_left (apply_one st) ds (a, b))
    = if existsb is_free_shipping ds then zero else b.
Proof.
  induction ds as [|d ds IH]; intros a b; simpl; [reflexivity|].
  unfold is_free_shipping at 1.
  destruct (type d); simpl; rewrite IH; try reflexivity.
  destruct (existsb is_free_shipping ds); reflexivity.
Qed.

Lemma fold_discount (st : num) (ds : list CartDiscount) :
  forall a b b',
    fst (fold_left (apply_one st) ds (a, b))
    = fst (fold_left (apply_one st) ds (a, b')).
Proof.
  induction ds as [|d ds IH]; intros a b b'; simpl; [reflexivity|].
  destruct (type d); simpl; apply IH.
Qed.

(** C5 (amended): with a free_shipping discount in the list the shipping
    amount is 0 and the total is the same for every shipping selection;
    without one the shipping amount is [shipping?.cost || 0]: the selected
    cost, or 0 when nothing is selected or the cost is 0 or NaN. *)
Theorem free_shipping_overrides_cost (its : list CartItem)
  (ds : list CartDiscount) (sh : option CartShipping) :
  if existsb is_free_shipping ds then
    shippingAmount (calculateCartSummary its ds sh) = zero
    /\ forall sh', sum_total (calculateCartSummary its ds sh')
                   = sum_total (calculateCartSummary its ds sh)
  else
    shippingAmount (calculateCartSummary its ds sh) = selected_cost sh.
Proof.
  destruct (summary_fields its ds sh) as (_ & _ & S & _ & T & _).
  destruct (existsb is_free_shipping ds) eqn:F.
  - split.
    + rewrite S, fold_shipping, F. reflexivity.
    + intros sh'.
      destruct (summary_fields its ds sh') as (_ & _ & _ & _ & T' & _).
      rewrite T, T', !fold_shipping, F.
      rewrite (fold_discount _ ds zero (selected_cost sh') (selected_cost sh)).
      reflexivity.
  - rewrite S, fold_shipping, F. reflexivity.
Qed.

Lemma fold_discount_sum (st : num) (ds : list CartDiscount) :
  forall a b,
    fst (fold_left (apply_one st) ds (a, b))
    = fold_left add (flat_map (contribution st) ds) a.
Proof.
  induction ds as [|d ds IH]; intros a b; simpl; [reflexivity|].
  unfold contribution at 1. destruct (type d); simpl; apply IH.
Qed.

Lemma existsb_permutation {A} (p : A -> bool) (l1 l2 : list A) :
  Permutation l1 l2 -> existsb p l1 = existsb p l2.
Proof.
  intros P.
  destruct (existsb p l1) eqn:E1, (existsb p l2) eqn:E2; try reflexivity.
  - apply existsb_exists in E1. destruct E1 as (x & I & Px).
    assert (T : existsb p l2 = true).
    { apply existsb_exists. exists x. split; [|exact Px].
      apply (Permutation_in _ P), I. }
    congruence.
  - apply existsb_exists in E2. destruct E2 as (x & I & Px).
    assert (T : existsb p l1 = true).
    { apply existsb_exists. exists x. split; [|exact Px].
      apply (Permutation_in _ (Permutation_sym P)), I. }
    congruence.
Qed.

(** C10 (amended): for two discount lists that are permutations of each
    other, [calculateCartSummary] returns the same subtotal, shippingAmount,
    itemCount and weight; each discountAmount is the sum, from 0 and from
    left to right, of the contributions of its list, and the two lists have
    the same contributions up to order; the two summaries are equal exactly
    when the two discountAmounts are. *)
Theorem summary_under_permutation (its : list CartItem)
  (ds1 ds2 : list CartDiscount) (sh : option CartShipping) :
  Permutation ds1 ds2 ->
  let m1 := calculateCartSummary its ds1 sh in
  let m2 := calculateCartSummary its ds2 sh in
  subtotal m1 = subtotal m2
  /\ shippingAmount m1 = shippingAmount m2
  /\ itemCount m1 = itemCount m2
  /\ weight m1 = weight m2
  /\ discountAmount m1
     = fold_left add (flat_map (contribution (subtotal m1)) ds1) zero
  /\ discountAmount m2
     = fold_left add (flat_map (contribution (subtotal m1)) ds2) zero
  /\ Permutation (flat_map (contribution (subtotal m1)) ds1)
                 (flat_map (contribution (subtotal m1)) ds2)
  /\ (m1 = m2 <-> discountAmount m1 = discountAmount m2).
Proof.
  intros P m1 m2.
  destruct (summary_fields its ds1 sh)
    as (S1 & D1 & Sh1 & T1 & Tot1 & _ & N1 & W1).
  destruct (summary_fields its ds2 sh)
    as (S2 & D2 & Sh2 & T2 & Tot2 & _ & N2 & W2).
  fold m1 in S1, D1, Sh1, T1, Tot1, N1, W1.
  fold m2 in S2, D2, Sh2, T2, Tot2, N2, W2.
  rewrite fold_discount_sum in D1, D2, T1, T2, Tot1, Tot2.
  rewrite fold_shipping in Sh1, Sh2, Tot1, Tot2.
  rewrite (existsb_permutation is_free_shipping ds1 ds2 P) in Sh1, Tot1.
  assert (Sh : shippingAmount m1 = shippingAmount m2) by congruence.
  assert (T : discountAmount m1 = discountAmount m2 -> m1 = m2).
  { intros D. rewrite D1, D2 in D.
    destruct m1, m2. simpl in *. rewrite D in *. congruence. }
  rewrite S1.
  split; [congruence|]. split; [exact Sh|].
  split; [congruence|]. split; [congruence|].
  split; [exact D1|]. split; [exact D2|].
  split; [apply Permutation_flat_map, P|].
  split; [|exact T].
  intros E. apply (f_equal discountAmount) in E. exact E.
Qed.

End ReducerFacts.

(** ** The lines of the cart *)

Section LineFacts.

Context {num : Type} `{JsNumber num}.

(** The line [addItem] dispatches. *)
Lemma addItem_items (item : NewCartItem) (s : CartState) :
  exists payload,
    productId payload = n_productId item
    /\ variant payload = n_variant item
    /\ quantity payload = n_quantity item
    /\ price payload = n_price item
    /\ id payload = item_id (n_productId item) (n_variant item)
    /\ line_ok payload
    /\ rendered (AddItem item) s = cartReducer s (ADD_ITEM payload).
Proof.
  exists {| id := item_id (n_productId item) (n_variant item);
            productId := n_productId item;
            product := n_product item;
            variant := n_variant item;
            quantity := n_quantity item;
            price := n_price item;
            total := mul (n_quantity item)
                         (variant_price_or (n_variant item) (n_price item)) |}.
  repeat split.
Qed.

(** What [ADD_ITEM] does to the list: it appends the payload when no line has
    its pair, and otherwise rewrites the first line that has it. *)
Lemma ADD_ITEM_items (payload : CartItem) (s : CartState) :
  let p := same_line (productId payload) (variant_id (variant payload)) in
  ((forall x, In x (items s) -> p x = false)
   /\ items (cartReducer s (ADD_ITEM payload)) = items s ++ [payload])
  \/ (exists l1 x l2,
        items s = l1 ++ x :: l2 /\ p x = true
        /\ (forall y, In y l1 -> p y = false)
        /\ items (cartReducer s (ADD_ITEM payload))
           = l1 ++ {| id := id x; productId := productId x;
                      product := product x; variant := variant x;
                      quantity := add (quantity x) (quantity payload);
                      price := price x;
                      total :=
                        mul (add (quantity x) (quantity payload))
                            (variant_price_or (variant payload) (price x)) |}
                :: l2).
Proof.
  intros p. simpl.
  change (fun item : CartItem =>
            String.eqb (productId item) (productId payload)
            && opt_string_eqb (variant_id (variant item))
                              (variant_id (variant payload)))
    with p.
  destruct (findIndex p (items s)) as [i|] eqn:F.
  - right.
    destruct (map_index_at p
                (fun x => {| id := id x; productId := productId x;
                             product := product x; variant := variant x;
                             quantity := add (quantity x) (quantity payload);
                             price := price x;
                             total :=
                               mul (add (quantity x) (quantity payload))
                                   (variant_price_or (variant payload)
                                                     (price x)) |})
                (items s) i 0 F)
      as (l1 & x & l2 & E & Px & N & M).
    exists l1, x, l2. repeat split; auto.
  - left. split; [apply findIndex_None; exact F | reflexivity].
Qed.

Lemma add_same_pair (item : NewCartItem) (line : CartItem) (s : CartState) :
  items s = [line] ->
  n_productId item = productId line ->
  variant_id (n_variant item) = variant_id (variant line) ->
  exists line',
    items (settled (AddItem item) s) = [line']
    /\ productId line' = productId line
    /\ variant line' = variant line
    /\ quantity line' = add (quantity line) (n_quantity item).
Proof.
  intros E P V. rewrite settled_items.
  destruct (addItem_items item s) as (payload & Pp & Pv & Pq & _ & _ & _ & ->).
  destruct (ADD_ITEM_items payload s) as [[N _]|(l1 & x & l2 & L & Px & N & M)].
  - exfalso. specialize (N line). rewrite E in N.
    specialize (N (or_introl eq_refl)).
    unfold same_line in N.
    rewrite Pp, Pv, P, V, String.eqb_refl, opt_string_eqb_refl in N.
    discriminate.
  - rewrite E in L.
    destruct l1 as [|y l1].
    + simpl in L. injection L as <- <-. rewrite M. simpl.
      eexists. split; [reflexivity|]. simpl. rewrite Pq. auto.
    + exfalso. injection L as _ L. destruct l1; discriminate.
Qed.

Lemma run_adds_same_pair (rest : list NewCartItem) :
  forall (s : CartState) (line : CartItem),
    items s = [line] ->
    Forall (fun item => n_productId item = productId line
                        /\ variant_id (n_variant item)
                           = variant_id (variant line)) rest ->
    exists line',
      items (run (map AddItem rest) s) = [line']
      /\ productId line' = productId line
      /\ variant line' = variant line
      /\ quantity line'
         = fold_left add (map n_quantity rest) (quantity line).
Proof.
  induction rest as [|item rest IH]; intros s line E F; simpl.
  - exists line. auto.
  - inversion F as [|? ? [P V] F']; subst.
    destruct (add_same_pair item line s E P V) as (line1 & E1 & P1 & V1 & Q1).
    destruct (IH (settled (AddItem item) s) line1 E1) as (line2 & E2 & P2 & V2 & Q2).
    { rewrite P1, V1. exact F'. }
    exists line2. unfold run in *. simpl.
    rewrite E2, P2, V2, Q2, P1, V1, Q1. auto.
Qed.

(** C3: any sequence of [addItem] calls that all carry the same productId
    and variant id, made on the empty cart, leaves exactly one line; it has
    that productId and variant, and its quantity is the sum, in call order,
    of the quantities passed. *)
Theorem same_pair_adds_merge (first : NewCartItem) (rest : list NewCartItem) :
  Forall (fun item => n_productId item = n_productId first
                      /\ variant_id (n_variant item)
                         = variant_id (n_variant first)) rest ->
  exists line,
    items (run (map AddItem (first :: rest)) emptyCart) = [line]
    /\ productId line = n_productId first
    /\ variant line = n_variant first
    /\ quantity line = fold_left add (map n_quantity rest) (n_quantity first).
Proof.
  intros F.
  assert (E : exists line0,
             items (settled (AddItem first) emptyCart) = [line0]
             /\ productId line0 = n_productId first
             /\ variant line0 = n_variant first
             /\ quantity line0 = n_quantity first).
  { eexists. rewrite settled_items. repeat split. }
  destruct E as (line0 & E0 & P0 & V0 & Q0).
  destruct (run_adds_same_pair rest (settled (AddItem first) emptyCart) line0 E0)
    as (line & E & P & V & Q).
  { rewrite P0, V0. exact F. }
  exists line. unfold run in *. simpl.
  rewrite E, P, V, Q, P0, V0, Q0. auto.
Qed.





End LineFacts.

(** ** The calculator and the provider on binary64 *)

(** Two binary64 numbers that answer differently to [== c] are different. *)
Ltac float_differ E c :=
  apply (f_equal (fun x => PrimFloat.eqb x c)) in E;
  vm_compute in E; discriminate E.

(** C1, as a render right after an operation reads it: on the empty cart,
    [addItem] leaves a summary that is not the one of the new item list. *)
Lemma summary_stale_after_addItem :
  ~ summary_consistent (rendered (AddItem two_shirts) emptyCart).
Proof.
  unfold summary_consistent. intros E.
  apply (f_equal subtotal) in E. vm_compute in E.
  float_differ E 0%float.
Qed.

Lemma summary_consistent_once_settled_witness :
  isInitialized (emptyCart (num := float)) = true
  /\ summary (rendered (AddItem two_shirts) emptyCart) = summary emptyCart
  /\ summary_consistent (settled (AddItem two_shirts) emptyCart)
  /\ items (settled (AddItem two_shirts) emptyCart)
     = items (rendered (AddItem two_shirts) emptyCart)
  /\ discounts (settled (AddItem two_shirts) emptyCart)
     = discounts (rendered (AddItem two_shirts) emptyCart)
  /\ shipping (settled (AddItem two_shirts) emptyCart)
     = shipping (rendered (AddItem two_shirts) emptyCart).
Proof.
  split; [reflexivity|].
  apply (summary_consistent_once_settled (AddItem two_shirts) emptyCart).
  reflexivity.
Defined.

(** C2: for one line of quantity 2 at unit price 20 (no variant) with one
    percentage discount of value 10 and no shipping, the summary has
    subtotal 40, discountAmount 4, taxAmount 2.88, shippingAmount 0 and
    total 38.88, in binary64. *)
Theorem worked_example_summary (item : CartItem) (d : CartDiscount) :
  quantity item = 2%float ->
  price item = 20%float ->
  variant item = None ->
  line_ok item ->
  type d = percentage ->
  value d = 10%float ->
  let m := calculateCartSummary [item] [d] None in
  subtotal m = 40%float
  /\ discountAmount m = 4%float
  /\ taxAmount m = 2.88%float
  /\ shippingAmount m = 0%float
  /\ sum_total m = 38.88%float.
Proof.
  destruct item as [i pid p v q pr t], d as [c ty va de ap].
  unfold line_ok, unitPrice. simpl.
  intros -> -> -> -> -> ->.
  vm_compute. repeat split.
Qed.

Lemma worked_example_summary_witness :
  let m := calculateCartSummary [shirt_line] [ten_percent] None in
  subtotal m = 40%float
  /\ discountAmount m = 4%float
  /\ taxAmount m = 2.88%float
  /\ shippingAmount m = 0%float
  /\ sum_total m = 38.88%float.
Proof.
  apply (worked_example_summary shirt_line ten_percent); reflexivity.
Defined.

Lemma same_pair_adds_merge_witness :
  exists line,
    items (run (map AddItem [two_shirts; three_shirts]) emptyCart) = [line]
    /\ productId line = n_productId two_shirts
    /\ variant line = n_variant two_shirts
    /\ quantity line
       = fold_left add (map n_quantity [three_shirts]) (n_quantity two_shirts).
Proof.
  apply (same_pair_adds_merge two_shirts [three_shirts]).
  constructor; [split; reflexivity | constructor].
Defined.



(** C5, as the claim words the second case: with no free_shipping discount
    and a selected cost that is NaN the shipping amount is 0, not the
    cost. *)
Lemma shipping_amount_not_nan_cost :
  existsb is_free_shipping (@nil (CartDiscount (num := float))) = false
  /\ shippingAmount
       (calculateCartSummary [shirt_line] [] (Some (courier PrimFloat.nan)))
     <> cost (courier PrimFloat.nan).
Proof.
  split; [reflexivity|]. intros E. vm_compute in E.
  apply (f_equal PrimFloat.is_nan) in E. vm_compute in E. discriminate E.
Qed.

Lemma updateQuantity_nonpositive_is_removeItem_witness :
  leb 0%float zero = true
  /\ updateQuantity "p1-default" 0%float (settled (AddItem two_shirts) emptyCart)
     = removeItem "p1-default" (settled (AddItem two_shirts) emptyCart).
Proof.
  split; [reflexivity|].
  apply (updateQuantity_nonpositive_is_removeItem "p1-default" 0%float).
  reflexivity.
Defined.

(** C7: the tax and the total are computed from subtotal - discountAmount
    with no clamp, and stacking a 100% discount with a fixed one of 10 on a
    subtotal of 40 gives discountAmount 50 > 40, taxAmount -0.8 and, with no
    shipping, total -10.8. *)
Theorem stacked_discounts_go_negative :
  (forall its ds sh,
     let m := calculateCartSummary (num := float) its ds sh in
     taxAmount m = mul (sub (subtotal m) (discountAmount m)) taxRate
     /\ sum_total m
        = add (add (sub (subtotal m) (discountAmount m)) (taxAmount m))
              (shippingAmount m))
  /\ exists its ds,
       let m := calculateCartSummary (num := float) its ds None in
       gtb (discountAmount m) (subtotal m) = true
       /\ taxAmount m = (-0.8)%float
       /\ ltb (taxAmount m) zero = true
       /\ shippingAmount m = zero
       /\ sum_total m = (-10.8)%float
       /\ ltb (sum_total m) zero = true.
Proof.
  split.
  - intros its ds sh m.
    destruct (summary_fields its ds sh) as (S & D & Sh & T & Tot & _).
    subst m. rewrite Tot, T, S, D, Sh. split; reflexivity.
  - exists [shirt_line], [all_off; ten_off]. vm_compute. repeat split.
Qed.

Lemma applyDiscountSafely_rejects_witness :
  exists message s',
    applyDiscountSafely too_much (settled (AddItem two_shirts) emptyCart)
    = (Returned tt, s')
    /\ In message ["Discount code already applied";
                   "Discount value must be greater than 0";
                   "Percentage discount cannot exceed 100%"]
    /\ error s' = Some message
    /\ items s' = items (settled (AddItem two_shirts) emptyCart)
    /\ discounts s' = discounts (settled (AddItem two_shirts) emptyCart)
    /\ shipping s' = shipping (settled (AddItem two_shirts) emptyCart)
    /\ summary s' = summary (settled (AddItem two_shirts) emptyCart).
Proof.
  apply (applyDiscountSafely_rejects too_much
           (settled (AddItem two_shirts) emptyCart)).
  right. right. split; reflexivity.
Defined.


(** C10, bit for bit: on a subtotal of 0.5 the fixed discounts 0.1, 0.2, 0.3
    and the same three in reverse order give different summaries, because
    binary64 addition is not associative. *)
Lemma summary_depends_on_discount_order :
  Permutation [fixed_off "A" 0.1; fixed_off "B" 0.2; fixed_off "C" 0.3]
              [fixed_off "C" 0.3; fixed_off "B" 0.2; fixed_off "A" 0.1]
  /\ calculateCartSummary [half_line]
       [fixed_off "A" 0.1; fixed_off "B" 0.2; fixed_off "C" 0.3] None
     <> calculateCartSummary [half_line]
          [fixed_off "C" 0.3; fixed_off "B" 0.2; fixed_off "A" 0.1] None.
Proof.
  split.
  - apply (Permutation_rev
             [fixed_off "A" 0.1; fixed_off "B" 0.2; fixed_off "C" 0.3]).
  - intros E. apply (f_equal discountAmount) in E. vm_compute in E.
    float_differ E 0.6%float.
Qed.


(** ** Further properties: the lists the reducer keeps *)

Lemma NoDup_snoc {A} (l : list A) (a : A) :
  NoDup l -> ~ In a l -> NoDup (l ++ [a]).
Proof.
  intros N I.
  apply (Permutation_NoDup (Permutation_cons_append l a)).
  constructor; assumption.
Qed.

Lemma NoDup_map_filter {A B} (k : A -> B) (f : A -> bool) (l : list A) :
  NoDup (map k l) -> NoDup (map k (filter f l)).
Proof.
  induction l as [|x l IH]; simpl; intros N; [constructor|].
  inversion N as [|? ? I N']; subst.
  destruct (f x); simpl; auto.
  constructor; auto.
  intros J. apply I. apply in_map_iff in J. destruct J as (y & E & J).
  apply in_map_iff. exists y. split; [exact E|].
  apply filter_In in J. apply J.
Qed.

Lemma filter_all {A} (f : A -> bool) (l : list A) :
  (forall x, In x l -> f x = true) -> filter f l = l.
Proof.
  induction l as [|x l IH]; simpl; intros T; [reflexivity|].
  rewrite (T x (or_introl eq_refl)). f_equal. apply IH. auto.
Qed.

Lemma filter_twice {A} (f : A -> bool) (l : list A) :
  filter f (filter f l) = filter f l.
Proof.
  apply filter_all. intros x I. apply filter_In in I. apply I.
Qed.

Section ListsOfTheCart.

Context {num : Type} `{JsNumber num}.

Lemma with_items_same (s : CartState (num := num)) : with_items s (items s) = s.
Proof. destruct s; reflexivity. Qed.

Lemma with_discounts_same (s : CartState (num := num)) :
  with_discounts s (discounts s) = s.
Proof. destruct s; reflexivity. Qed.

Lemma same_line_key (x y : CartItem (num := num)) :
  same_line (productId y) (variant_id (variant y)) x = true
  <-> item_key x = item_key y.
Proof.
  unfold same_line, item_key. rewrite andb_true_iff, String.eqb_eq,
    opt_string_eqb_eq.
  split; [intros [-> ->]; reflexivity | intros E; injection E; auto].
Qed.

Lemma call_keeps_keys (op : CartOperation) (s : CartState) :
  NoDup (map item_key (items s)) ->
  NoDup (map item_key (items (rendered op s))).
Proof.
  intros N. destruct op as [item|i|i q| |d|c|sh]; try exact N.
  - destruct (addItem_items item s) as (payload & _ & _ & _ & _ & _ & _ & ->).
    destruct (ADD_ITEM_items payload s)
      as [[F ->]|(l1 & x & l2 & L & _ & _ & ->)].
    + rewrite map_app. simpl. apply NoDup_snoc; [exact N|].
      intros I. apply in_map_iff in I. destruct I as (x & E & I).
      apply same_line_key in E. rewrite (F x I) in E. discriminate.
    + rewrite L in N. rewrite map_app in *. exact N.
  - apply NoDup_map_filter, N.
  - unfold rendered, exec. simpl. destruct (leb q zero); simpl.
    + apply NoDup_map_filter, N.
    + rewrite map_map.
      rewrite (map_ext _ item_key); [exact N|].
      intros x. destruct (String.eqb (id x) i); reflexivity.
  - constructor.
Qed.

(** X1: whatever operations are called on the empty cart, no two lines of
    the cart share a (productId, variant id) pair. *)
Theorem lines_have_distinct_pairs (ops : list CartOperation) :
  NoDup (map item_key (items (run ops emptyCart))).
Proof.
  assert (G : forall s : CartState, NoDup (map item_key (items s)) ->
                        NoDup (map item_key (items (run ops s)))).
  { induction ops as [|op ops IH]; intros s N; [exact N|].
    apply IH. rewrite settled_items. apply call_keeps_keys, N. }
  apply G. constructor.
Qed.

Lemma call_keeps_codes (op : CartOperation) (s : CartState) :
  NoDup (map code (discounts s)) ->
  NoDup (map code (discounts (rendered op s))).
Proof.
  intros N. destruct op as [item|i|i q| |d|c|sh]; try exact N.
  - unfold rendered, exec. simpl. destruct (leb q zero); exact N.
  - constructor.
  - unfold rendered, exec. simpl. rewrite map_app. simpl.
    apply NoDup_snoc; [apply NoDup_map_filter, N|].
    intros I. apply in_map_iff in I. destruct I as (x & E & I).
    apply filter_In in I. destruct I as [_ I].
    rewrite E, String.eqb_refl in I. discriminate.
  - apply NoDup_map_filter, N.
Qed.

(** X2: whatever operations are called on the empty cart, no two applied
    discounts share a code. *)
Theorem discounts_have_distinct_codes (ops : list CartOperation) :
  NoDup (map code (discounts (run ops emptyCart))).
Proof.
  assert (G : forall s : CartState, NoDup (map code (discounts s)) ->
                        NoDup (map code (discounts (run ops s)))).
  { induction ops as [|op ops IH]; intros s N; [exact N|].
    apply IH. rewrite settled_discounts. apply call_keeps_codes, N. }
  apply G. constructor.
Qed.

(** X3: [removeItem(id)] keeps exactly the lines whose id differs, and
    calling it a second time changes nothing. *)
Theorem removeItem_removes_the_id (itemId : string) (s : CartState) :
  (forall item,
     In item (items (rendered (RemoveItem itemId) s))
     <-> In item (items s) /\ id item <> itemId)
  /\ rendered (RemoveItem itemId) (rendered (RemoveItem itemId) s)
     = rendered (RemoveItem itemId) s.
Proof.
  split.
  - intros item. unfold rendered, exec. simpl. rewrite filter_In.
    rewrite negb_true_iff, String.eqb_neq. tauto.
  - unfold rendered, exec. simpl. rewrite filter_twice. reflexivity.
Qed.

(** X4: on an id no line has, [removeItem] and [updateQuantity] leave the
    store exactly as it was, without any error. *)
Theorem absent_id_is_ignored (itemId : string) (s : CartState) :
  (forall item, In item (items s) -> id item <> itemId) ->
  removeItem itemId s = (Returned tt, s)
  /\ forall q, updateQuantity itemId q s = (Returned tt, s).
Proof.
  intros A.
  assert (F : filter (fun item => negb (String.eqb (id item) itemId)) (items s)
              = items s).
  { apply filter_all. intros x I. apply negb_true_iff, String.eqb_neq, A, I. }
  split.
  - unfold removeItem, dispatch. simpl. rewrite F, with_items_same.
    reflexivity.
  - intros q. unfold updateQuantity, dispatch. simpl.
    destruct (leb q zero).
    + rewrite F, with_items_same. reflexivity.
    + rewrite (map_ext_in _ (fun x => x)), map_id, with_items_same;
        [reflexivity|].
      intros x I. apply A, String.eqb_neq in I. rewrite I. reflexivity.
Qed.

Lemma filter_code_app (c : string) (ds : list (CartDiscount (num := num)))
  (d : CartDiscount) :
  code d = c ->
  filter (fun x => negb (String.eqb (code x) c)) (ds ++ [d])
  = filter (fun x => negb (String.eqb (code x) c)) ds.
Proof.
  intros <-. rewrite filter_app. simpl. rewrite String.eqb_refl. simpl.
  apply app_nil_r.
Qed.

(** X5: applying a discount twice is the same as applying it once, removing
    its code after applying it is the same as just removing that code, and
    when the code was not applied before, apply followed by remove gives the
    store back. *)
Theorem applyDiscount_replaces_and_undoes (d : CartDiscount) (s : CartState) :
  rendered (ApplyDiscount d) (rendered (ApplyDiscount d) s)
  = rendered (ApplyDiscount d) s
  /\ rendered (RemoveDiscount (code d)) (rendered (ApplyDiscount d) s)
     = rendered (RemoveDiscount (code d)) s
  /\ (if existsb (fun x => String.eqb (code x) (code d)) (discounts s)
      then True
      else rendered (RemoveDiscount (code d)) (rendered (ApplyDiscount d) s)
           = s).
Proof.
  unfold rendered, exec. simpl. unfold with_discounts. simpl.
  rewrite !filter_code_app by reflexivity. rewrite filter_twice.
  repeat split.
  destruct (existsb _ (discounts s)) eqn:E; [exact I|].
  rewrite filter_all; [destruct s; reflexivity|].
  intros x J. apply negb_true_iff.
  destruct (String.eqb (code x) (code d)) eqn:C; [|reflexivity].
  assert (T : existsb (fun x => String.eqb (code x) (code d)) (discounts s)
              = true).
  { apply existsb_exists. exists x. auto. }
  congruence.
Qed.

Lemma forEach_removeDiscount (l : list (CartDiscount (num := num))) :
  forall s,
    forEach (fun d => removeDiscount (code d)) l s
    = (Returned tt,
       with_discounts s
         (fold_left
            (fun ds d =>
               filter (fun x : CartDiscount =>
                         negb (String.eqb (code x) (code d))) ds)
            l (discounts s))).
Proof.
  induction l as [|d l IH]; intros s; simpl.
  - rewrite with_discounts_same. reflexivity.
  - unfold bind, removeDiscount, dispatch. simpl. rewrite IH. reflexivity.
Qed.

Lemma remove_all_codes (l : list (CartDiscount (num := num))) :
  forall ds,
    (forall x, In x ds -> In x l) ->
    fold_left
      (fun ds d =>
         filter (fun x : CartDiscount =>
                   negb (String.eqb (code x) (code d))) ds)
      l ds = [].
Proof.
  induction l as [|d l IH]; intros ds Sub; simpl.
  - destruct ds as [|x ds]; [reflexivity|].
    destruct (Sub x (or_introl eq_refl)).
  - apply IH. intros x I. apply filter_In in I. destruct I as [I C].
    destruct (Sub x I) as [<-|J]; [|exact J].
    rewrite String.eqb_refl in C. discriminate.
Qed.

Lemma clearAllDiscounts_store (s : CartState) :
  clearAllDiscounts s = (Returned tt, with_discounts s []).
Proof.
  unfold clearAllDiscounts, bind, get_cart.
  rewrite forEach_removeDiscount, remove_all_codes; auto.
Qed.

(** X6: [clearAllDiscounts] returns normally and leaves no discount; it
    changes nothing else in the store. *)
Theorem clearAllDiscounts_empties (s : CartState) :
  clearAllDiscounts s = (Returned tt, with_discounts s []).
Proof. apply clearAllDiscounts_store. Qed.

End ListsOfTheCart.

(** ** Further properties: getters, storage and the enhanced hook *)

Lemma existsb_find {A} (p : A -> bool) (l : list A) :
  existsb p l = match find p l with Some _ => true | None => false end.
Proof.
  induction l as [|x l IH]; simpl; [reflexivity|].
  destruct (p x); simpl; auto.
Qed.

Lemma find_app_skip {A} (p : A -> bool) (l r : list A) :
  (forall x, In x l -> p x = false) -> find p (l ++ r) = find p r.
Proof.
  induction l as [|x l IH]; simpl; intros N; [reflexivity|].
  rewrite (N x (or_introl eq_refl)). apply IH. auto.
Qed.

Section HookFacts.

Context {num : Type} `{JsNumber num}.

(** X7: [isInCart] answers true exactly when [getCartItem] finds a line, and
    the line found is in the cart and has the productId and variant id asked
    for; when none is found, no line has both. *)
Theorem isInCart_agrees_with_getCartItem
  (pid : string) (variantId : option string) (s : CartState (num := num)) :
  match getCartItem pid variantId s with
  | Some line =>
      isInCart pid variantId s = true
      /\ In line (items s)
      /\ productId line = pid
      /\ variant_id (variant line) = variantId
  | None =>
      isInCart pid variantId s = false
      /\ forall line, In line (items s) ->
                      productId line <> pid
                      \/ variant_id (variant line) <> variantId
  end.
Proof.
  unfold isInCart, getCartItem. rewrite existsb_find.
  destruct (find (same_line pid variantId) (items s)) as [line|] eqn:F.
  - apply find_some in F. destruct F as [I S].
    unfold same_line in S. apply andb_true_iff in S. destruct S as [P V].
    apply String.eqb_eq in P. apply opt_string_eqb_eq in V. auto.
  - split; [reflexivity|]. intros line I.
    pose proof (find_none _ _ F line I) as S.
    unfold same_line in S. apply andb_false_iff in S.
    destruct S as [P|V].
    + left. apply String.eqb_neq, P.
    + right. intros E. apply opt_string_eqb_eq in E. congruence.
Qed.

(** X8: right after [addItem(item)], [getCartItem] for the item's productId
    and variant id finds a line with that productId and variant id, and
    [isInCart] answers true. *)
Theorem added_item_is_in_cart (item : NewCartItem) (s : CartState) :
  isInCart (n_productId item) (variant_id (n_variant item))
           (rendered (AddItem item) s) = true
  /\ exists line,
       getCartItem (n_productId item) (variant_id (n_variant item))
                   (rendered (AddItem item) s) = Some line
       /\ productId line = n_productId item
       /\ variant_id (variant line) = variant_id (n_variant item).
Proof.
  assert (G : exists line,
             getCartItem (n_productId item) (variant_id (n_variant item))
                         (rendered (AddItem item) s) = Some line
             /\ productId line = n_productId item
             /\ variant_id (variant line) = variant_id (n_variant item)).
  { unfold getCartItem.
    destruct (addItem_items item s) as (payload & Pp & Pv & _ & _ & _ & _ & ->).
    rewrite <- Pp, <- Pv.
    destruct (ADD_ITEM_items payload s)
      as [[N ->]|(l1 & x & l2 & L & Px & N & ->)];
      rewrite (find_app_skip _ _ _ N); simpl.
    - unfold same_line at 1.
      rewrite String.eqb_refl, opt_string_eqb_refl. simpl. eauto.
    - unfold same_line at 1. simpl. unfold same_line in Px. rewrite Px.
      apply andb_true_iff in Px. destruct Px as [P V].
      apply String.eqb_eq in P. apply opt_string_eqb_eq in V.
      eexists. split; [reflexivity|]. simpl. auto. }
  split; [|exact G].
  destruct G as (line & G & _). unfold isInCart, getCartItem in *.
  rewrite existsb_find, G. reflexivity.
Qed.


(** X10: before the cart is initialized the save effect writes nothing, and
    it never changes what is stored under another key. *)
Theorem saveEffect_writes_one_key
  (JSON_stringify : CartState (num := num) -> outcome string)
  (s : CartState) (st : Storage) (key : string) :
  saveEffect JSON_stringify s st key
  = if isInitialized s && String.eqb key CART_STORAGE_KEY then
      match JSON_stringify (with_error s None) with
      | Returned text => Some text
      | Thrown _ => st key
      end
    else st key.
Proof.
  unfold saveEffect, setItem.
  destruct (isInitialized s); simpl; [|reflexivity].
  destruct (JSON_stringify (with_error s None)); simpl;
    destruct (String.eqb key CART_STORAGE_KEY); reflexivity.
Qed.

Lemma addItemSafely_cases (item : NewCartItem) (s : CartState) :
  if acceptable item then addItemSafely item s = addItem item s
  else exists message,
         In message ["Quantity must be greater than 0";
                     "Product is not available";
                     "Product is out of stock"]
         /\ addItemSafely item s = (Returned tt, with_error s (Some message)).
Proof.
  unfold acceptable, addItemSafely, try_catch, bind, assign_error.
  destruct (leb (n_quantity item) zero); simpl.
  { eexists; split; [|reflexivity]. simpl; auto. }
  destruct (p_isActive (n_product item)); simpl.
  2:{ eexists; split; [|reflexivity]. simpl; auto. }
  destruct (new_item_in_stock item); simpl.
  - reflexivity.
  - eexists; split; [|reflexivity]. simpl; auto.
Qed.

(** X11: [addItemSafely] never throws.  An item with quantity [<= 0], an
    inactive product, or neither the product in stock nor a variant with
    inventory above 0, is refused: the reason goes to the error field and
    nothing else changes.  Any other item is added exactly as by
    [addItem]. *)
Theorem addItemSafely_guards (item : NewCartItem) (s : CartState) :
  if acceptable item then addItemSafely item s = addItem item s
  else exists message,
         In message ["Quantity must be greater than 0";
                     "Product is not available";
                     "Product is out of stock"]
         /\ addItemSafely item s = (Returned tt, with_error s (Some message)).
Proof. apply addItemSafely_cases. Qed.

Lemma addMultipleItems_items (batch : list NewCartItem) :
  forall s1 s2 : CartState,
    items s1 = items s2 ->
    exists s',
      addMultipleItems batch s1 = (Returned tt, s')
      /\ items s'
         = items (exec (forEach addItem (filter acceptable batch)) s2).
Proof.
  induction batch as [|x batch IH]; intros s1 s2 E; simpl.
  - exists s1. split; [reflexivity|exact E].
  - unfold addMultipleItems in *. simpl. unfold bind at 1.
    pose proof (addItemSafely_cases x s1) as C.
    destruct (acceptable x).
    + rewrite C. simpl. unfold exec, bind. simpl.
      apply IH. simpl. rewrite E. reflexivity.
    + destruct C as (message & _ & ->). apply IH. exact E.
Qed.

(** X12: [addMultipleItems] never throws, and the lines it leaves are those
    that adding just the acceptable items of the batch, in order, would
    leave: a refused item does not stop the ones after it. *)
Theorem addMultipleItems_skips_refused (batch : list NewCartItem)
  (s : CartState) :
  exists s',
    addMultipleItems batch s = (Returned tt, s')
    /\ items s' = items (exec (forEach addItem (filter acceptable batch)) s).
Proof. apply addMultipleItems_items. reflexivity. Qed.

Section Validation.

Variable number_toString : num -> string.

Lemma item_errors_nil (item : CartItem) :
  item_errors number_toString item = [] <-> line_valid item = true.
Proof.
  unfold item_errors, line_valid.
  destruct (p_isActive (product item)), (p_isInStock (product item));
    simpl; try (split; discriminate).
  destruct (variant item) as [w|]; [|tauto].
  destruct (v_inventory w) as [n|]; [|tauto].
  destruct (ltb n (quantity item)); simpl; split;
    try discriminate; reflexivity.
Qed.

Lemma errors_nil (l : list CartItem) :
  flat_map (item_errors number_toString) l = []
  <-> forallb line_valid l = true.
Proof.
  induction l as [|x l IH]; simpl; [tauto|].
  rewrite andb_true_iff, <- IH, <- item_errors_nil.
  split.
  - intros E. apply app_eq_nil in E. exact E.
  - intros [-> ->]. reflexivity.
Qed.

Lemma valid_lines_in_stock (l : list CartItem) :
  forallb line_valid l = true ->
  filter (fun item => negb (p_isInStock (product item))) l = [].
Proof.
  induction l as [|x l IH]; simpl; intros V; [reflexivity|].
  apply andb_true_iff in V. destruct V as [Vx V].
  unfold line_valid in Vx.
  apply andb_true_iff in Vx. destruct Vx as [Vx _].
  apply andb_true_iff in Vx. destruct Vx as [_ Vx].
  rewrite Vx. simpl. apply IH, V.
Qed.

(** X13: [validateCart] reports the cart valid exactly when every line has
    an active product that is in stock and, for a variant with a known
    inventory, an inventory not below the quantity.  A valid cart has no
    out-of-stock items; an invalid one comes with at least one message. *)
Theorem validateCart_isValid (s : CartState) :
  fst (validateCart number_toString s) = forallb line_valid (items s)
  /\ (if fst (validateCart number_toString s)
      then outOfStockItems s = []
      else snd (validateCart number_toString s) <> []).
Proof.
  unfold validateCart. simpl.
  pose proof (errors_nil (items s)) as N.
  destruct (flat_map (item_errors number_toString) (items s)) as [|e es];
    simpl.
  - assert (V : forallb line_valid (items s) = true) by (apply N; reflexivity).
    split; [symmetry; exact V|].
    apply valid_lines_in_stock, V.
  - split; [|discriminate].
    destruct (forallb line_valid (items s)); [|reflexivity].
    destruct N as [_ N]. discriminate (N eq_refl).
Qed.

End Validation.

End HookFacts.

(** X14: on an initialized cart, in binary64, [clearCart] followed by the
    summary effect leaves no line, no discount, no shipping selection and
    the all-zero summary of the initial state. *)
Theorem clearCart_resets_summary (s : CartState (num := float)) :
  isInitialized s = true ->
  items (settled ClearCart s) = []
  /\ discounts (settled ClearCart s) = []
  /\ shipping (settled ClearCart s) = None
  /\ summary (settled ClearCart s) = summary initialState.
Proof.
  intros E. unfold settled, rendered, exec, summaryEffect. simpl.
  rewrite E. simpl. repeat split.
Qed.

(** ** Further properties: what the guarded operations never do *)

Lemma forEach_returns {S A} (f : A -> Eff S unit) :
  (forall x s, fst (f x s) = Returned tt) ->
  forall l s, fst (forEach f l s) = Returned tt.
Proof.
  intros R l. induction l as [|x l IH]; intros s; simpl; [reflexivity|].
  unfold bind. specialize (R x s).
  destruct (f x s) as [[[]|e] s']; simpl in R; [apply IH|discriminate].
Qed.

Section GuardFacts.

Context {num : Type} `{JsNumber num}.

Variable number_toString : num -> string.

(** The three ways [updateQuantitySafely] can end, whatever render it is
    called in. *)
Lemma updateQuantitySafely_in_cases (cart : CartState) (itemId : string)
  (q : num) (s : CartState) :
  updateQuantitySafely_in number_toString cart itemId q s
  = removeItem itemId s
  \/ updateQuantitySafely_in number_toString cart itemId q s
     = updateQuantity itemId q s
  \/ exists message,
       updateQuantitySafely_in number_toString cart itemId q s
       = (Returned tt, with_error s (Some message)).
Proof.
  unfold updateQuantitySafely_in, try_catch, bind, assign_error.
  destruct (ltb q zero); simpl; [right; right; eauto|].
  destruct (find (has_id itemId) (items cart)) as [item|]; simpl;
    [|right; right; eauto].
  destruct (strict_eqb q zero); [left; reflexivity|].
  destruct (gtb q (maxQuantity item)); simpl;
    [right; right; eauto | right; left; reflexivity].
Qed.

Lemma updateQuantitySafely_cases (itemId : string) (q : num) (s : CartState) :
  updateQuantitySafely number_toString itemId q s = removeItem itemId s
  \/ updateQuantitySafely number_toString itemId q s
     = updateQuantity itemId q s
  \/ exists message,
       updateQuantitySafely number_toString itemId q s
       = (Returned tt, with_error s (Some message)).
Proof. apply (updateQuantitySafely_in_cases s). Qed.

Lemma updateQuantitySafely_in_returns (cart : CartState) (itemId : string)
  (q : num) (s : CartState) :
  fst (updateQuantitySafely_in number_toString cart itemId q s) = Returned tt.
Proof.
  destruct (updateQuantitySafely_in_cases cart itemId q s)
    as [->|[->|(m & ->)]]; reflexivity.
Qed.

Lemma updateQuantitySafely_returns (itemId : string) (q : num)
  (s : CartState) :
  fst (updateQuantitySafely number_toString itemId q s) = Returned tt.
Proof.
  destruct (updateQuantitySafely_cases itemId q s) as [->|[->|(m & ->)]];
    reflexivity.
Qed.

Lemma addItemSafely_returns (item : NewCartItem) (s : CartState) :
  fst (addItemSafely item s) = Returned tt.
Proof.
  pose proof (addItemSafely_cases item s) as C.
  destruct (acceptable item); [rewrite C; reflexivity|].
  destruct C as (m & _ & ->). reflexivity.
Qed.

(** X15: none of the guarded operations of the hooks throws, whatever the
    arguments and the store: each returns normally, the bulk ones
    included. *)
Theorem guarded_operations_never_throw (s : CartState) :
  (forall item, fst (addItemSafely item s) = Returned tt)
  /\ (forall itemId q,
        fst (updateQuantitySafely number_toString itemId q s) = Returned tt)
  /\ (forall itemId, fst (removeItemSafely itemId s) = Returned tt)
  /\ fst (clearCartSafely s) = Returned tt
  /\ (forall discount, fst (applyDiscountSafely discount s) = Returned tt)
  /\ (forall batch, fst (addMultipleItems batch s) = Returned tt)
  /\ (forall updates,
        fst (updateMultipleQuantities number_toString updates s)
        = Returned tt)
  /\ (forall itemId,
        fst (increaseQuantity number_toString itemId s) = Returned tt)
  /\ (forall itemId,
        fst (decreaseQuantity number_toString itemId s) = Returned tt)
  /\ fst (clearAllDiscounts s) = Returned tt.
Proof.
  repeat split.
  - intros item. apply addItemSafely_returns.
  - intros itemId q. apply updateQuantitySafely_returns.
  - intros itemId.
    unfold removeItemSafely, try_catch, bind, get_cart, assign_error.
    destruct (find (has_id itemId) (items s)); reflexivity.
  - unfold clearCartSafely, try_catch, bind, get_cart, assign_error.
    destruct (Nat.eqb (List.length (items s)) 0); reflexivity.
  - intros discount.
    unfold applyDiscountSafely, try_catch, bind, get_cart, assign_error.
    destruct (existsb _ (discounts s)); simpl; [reflexivity|].
    destruct (leb (value discount) zero); simpl; [reflexivity|].
    destruct (is_percentage discount && gtb (value discount) hundred);
      reflexivity.
  - intros batch. apply forEach_returns. apply addItemSafely_returns.
  - intros updates. unfold updateMultipleQuantities, bind, get_cart.
    apply forEach_returns. intros u s'. apply updateQuantitySafely_in_returns.
  - intros itemId. unfold increaseQuantity, bind, get_cart.
    destruct (find (has_id itemId) (items s));
      [apply updateQuantitySafely_returns | reflexivity].
  - intros itemId. unfold decreaseQuantity, bind, get_cart.
    destruct (find (has_id itemId) (items s)) as [item|]; [|reflexivity].
    destruct (gtb (quantity item) one);
      [apply updateQuantitySafely_returns | reflexivity].
  - rewrite clearAllDiscounts_store. reflexivity.
Qed.

(** X16: on an id no line has, [removeItemSafely] and [updateQuantitySafely]
    (with a quantity that is not negative) record 'Item not found in cart'
    in the error field and change nothing else. *)
Theorem absent_id_is_reported (itemId : string) (s : CartState) :
  (forall item, In item (items s) -> id item <> itemId) ->
  removeItemSafely itemId s
  = (Returned tt, with_error s (Some "Item not found in cart"))
  /\ forall q,
       ltb q zero = false ->
       updateQuantitySafely number_toString itemId q s
       = (Returned tt, with_error s (Some "Item not found in cart")).
Proof.
  intros A.
  assert (F : find (has_id itemId) (items s) = None).
  { destruct (find (has_id itemId) (items s)) as [x|] eqn:F; [|reflexivity].
    apply find_some in F. destruct F as [I E].
    apply String.eqb_eq in E. destruct (A x I E). }
  split.
  - unfold removeItemSafely, try_catch, bind, get_cart, assign_error.
    rewrite F. reflexivity.
  - intros q N.
    unfold updateQuantitySafely, updateQuantitySafely_in, try_catch, bind,
      get_cart, assign_error.
    rewrite N. simpl. rewrite F. reflexivity.
Qed.

End GuardFacts.

(** ** Further properties: the order of binary64 numbers *)

Ltac order_cases :=
  repeat match goal with
  | E : context [Z.compare ?x ?y] |- _ =>
      destruct (Z.compare_spec x y); simpl in E
  | |- context [Z.compare ?x ?y] =>
      destruct (Z.compare_spec x y); simpl
  | E : context [Pos.compare_cont Eq ?x ?y] |- _ =>
      change (Pos.compare_cont Eq x y) with (Pos.compare x y) in E;
      destruct (Pos.compare_spec x y); simpl in E
  | |- context [Pos.compare_cont Eq ?x ?y] =>
      change (Pos.compare_cont Eq x y) with (Pos.compare x y);
      destruct (Pos.compare_spec x y); simpl
  end.

(** [<] on spec floats: if a is not below b and b, which is a number, is
    not below c, then a is not below c. *)
Lemma SFltb_neg_trans (a b c : spec_float) :
  SFeqb b b = true ->
  SFltb a b = false -> SFltb b c = false -> SFltb a c = false.
Proof.
  unfold SFltb, SFeqb, SFcompare.
  destruct a as [sa|sa| |sa ma ea], b as [sb|sb| |sb mb eb],
    c as [sc|sc| |sc mc ec]; simpl;
    try discriminate; try reflexivity;
    repeat match goal with s : bool |- _ => destruct s end; simpl;
    try discriminate; try reflexivity;
    intros _ AB BC; order_cases;
    try discriminate; try reflexivity; try lia.
Qed.

Lemma SFltb_irrefl (a : spec_float) : SFltb a a = false.
Proof.
  unfold SFltb, SFcompare.
  destruct a as [sa|sa| |sa ma ea]; simpl; try reflexivity;
    destruct sa; simpl; try reflexivity; order_cases;
    try reflexivity; try lia.
Qed.

Lemma SFltb_asym (a b : spec_float) : SFltb a b = true -> SFltb b a = false.
Proof.
  unfold SFltb, SFcompare.
  destruct a as [sa|sa| |sa ma ea], b as [sb|sb| |sb mb eb]; simpl;
    try discriminate; try reflexivity;
    repeat match goal with s : bool |- _ => destruct s end; simpl;
    try discriminate; try reflexivity;
    intros AB; order_cases;
    try discriminate; try reflexivity; try lia.
Qed.

Lemma float_ltb_neg_trans (a b c : float) :
  PrimFloat.is_nan b = false ->
  PrimFloat.ltb a b = false -> PrimFloat.ltb b c = false ->
  PrimFloat.ltb a c = false.
Proof.
  unfold PrimFloat.is_nan. rewrite !ltb_spec, eqb_spec. intros N.
  apply negb_false_iff in N. apply SFltb_neg_trans, N.
Qed.

Lemma float_ltb_irrefl (a : float) : PrimFloat.ltb a a = false.
Proof. rewrite ltb_spec. apply SFltb_irrefl. Qed.

Lemma float_ltb_asym (a b : float) :
  PrimFloat.ltb a b = true -> PrimFloat.ltb b a = false.
Proof. rewrite !ltb_spec. apply SFltb_asym. Qed.

(** Of two numbers that are not equal, one is below the other. *)
Lemma SFltb_total (a b : spec_float) :
  SFeqb a a = true -> SFeqb b b = true ->
  SFltb a b = false -> SFeqb a b = false -> SFltb b a = true.
Proof.
  unfold SFltb, SFeqb, SFcompare.
  destruct a as [sa|sa| |sa ma ea], b as [sb|sb| |sb mb eb]; simpl;
    try discriminate; try reflexivity;
    repeat match goal with s : bool |- _ => destruct s end; simpl;
    try discriminate; try reflexivity;
    intros _ _ AB NE; order_cases;
    try discriminate; try reflexivity; try lia.
Qed.

Lemma float_ltb_total (a b : float) :
  PrimFloat.is_nan a = false -> PrimFloat.is_nan b = false ->
  PrimFloat.ltb a b = false -> PrimFloat.eqb a b = false ->
  PrimFloat.ltb b a = true.
Proof.
  unfold PrimFloat.is_nan. rewrite !ltb_spec, !eqb_spec. intros Na Nb.
  apply negb_false_iff in Na, Nb. apply SFltb_total; assumption.
Qed.

(** X18: on binary64, for a quantity that is not NaN, every line that
    [updateQuantitySafely(id, q)] leaves is a line that was there, or a line
    with that id whose quantity is now q; and then q is above 0 and not
    above the stock limit of the first line with that id. *)
Theorem updateQuantitySafely_stores_checked_quantity
  (number_toString : float -> string) (itemId : string) (q : float)
  (s : CartState) :
  PrimFloat.is_nan q = false ->
  forall line,
    In line (items (snd (updateQuantitySafely number_toString itemId q s))) ->
    In line (items s)
    \/ (id line = itemId
        /\ quantity line = q
        /\ gtb q zero = true
        /\ exists item,
             find (has_id itemId) (items s) = Some item
             /\ gtb q (maxQuantity item) = false).
Proof.
  intros N line.
  unfold updateQuantitySafely, updateQuantitySafely_in, try_catch, bind,
    get_cart, assign_error.
  destruct (ltb q zero) eqn:Neg; simpl; [auto|].
  destruct (find (has_id itemId) (items s)) as [item|] eqn:F; simpl; [|auto].
  destruct (PrimFloat.eqb q 0) eqn:Z.
  { simpl. rewrite filter_In. tauto. }
  destruct (PrimFloat.ltb (maxQuantity item) q) eqn:G; simpl; [auto|].
  destruct (PrimFloat.leb q 0) eqn:L; simpl.
  { rewrite filter_In. tauto. }
  rewrite in_map_iff. intros (y & E & I).
  destruct (String.eqb (id y) itemId) eqn:Y; [|left; subst; exact I].
  right. subst line. simpl.
  split; [apply String.eqb_eq, Y|]. split; [reflexivity|].
  split; [|exists item; auto].
  apply float_ltb_total; auto.
Qed.

Section Analytics.

(** The running maximum of the reduce: it is the seed or a line of the
    list, and neither the seed nor any line of the list is above it. *)
Lemma most_expensive_fold (l : list (CartItem (num := float))) :
  forall m,
    PrimFloat.is_nan (price m) = false ->
    (forall x, In x l -> PrimFloat.is_nan (price x) = false) ->
    let r := fold_left
               (fun max item => if gtb (price item) (price max) then item
                                else max) l m in
    (r = m \/ In r l)
    /\ PrimFloat.ltb (price r) (price m) = false
    /\ forall x, In x l -> PrimFloat.ltb (price r) (price x) = false.
Proof.
  induction l as [|y l IH]; intros m Nm Nl; simpl.
  - split; [left; reflexivity|]. split; [apply float_ltb_irrefl|].
    intros x [].
  - assert (Ny : PrimFloat.is_nan (price y) = false) by (apply Nl; left; auto).
    assert (Nl' : forall x, In x l -> PrimFloat.is_nan (price x) = false)
      by (intros x I; apply Nl; right; exact I).
    destruct (PrimFloat.ltb (price m) (price y)) eqn:E.
    + destruct (IH y Ny Nl') as (M & L & A).
      split; [|split].
      * destruct M as [M|M]; [right; left; symmetry; exact M
                             | right; right; exact M].
      * apply (float_ltb_neg_trans _ (price y)); [exact Ny | exact L |].
        apply float_ltb_asym, E.
      * intros x [<-|I]; [exact L | apply A, I].
    + destruct (IH m Nm Nl') as (M & L & A).
      split; [|split].
      * destruct M as [M|M]; [left; exact M | right; right; exact M].
      * exact L.
      * intros x [<-|I]; [|apply A, I].
        apply (float_ltb_neg_trans _ (price m)); [exact Nm | exact L | exact E].
Qed.

Lemma cheapest_fold (l : list (CartItem (num := float))) :
  forall m,
    PrimFloat.is_nan (price m) = false ->
    (forall x, In x l -> PrimFloat.is_nan (price x) = false) ->
    let r := fold_left
               (fun min item => if ltb (price item) (price min) then item
                                else min) l m in
    (r = m \/ In r l)
    /\ PrimFloat.ltb (price m) (price r) = false
    /\ forall x, In x l -> PrimFloat.ltb (price x) (price r) = false.
Proof.
  induction l as [|y l IH]; intros m Nm Nl; simpl.
  - split; [left; reflexivity|]. split; [apply float_ltb_irrefl|].
    intros x [].
  - assert (Ny : PrimFloat.is_nan (price y) = false) by (apply Nl; left; auto).
    assert (Nl' : forall x, In x l -> PrimFloat.is_nan (price x) = false)
      by (intros x I; apply Nl; right; exact I).
    destruct (PrimFloat.ltb (price y) (price m)) eqn:E.
    + destruct (IH y Ny Nl') as (M & L & A).
      split; [|split].
      * destruct M as [M|M]; [right; left; symmetry; exact M
                             | right; right; exact M].
      * apply (float_ltb_neg_trans _ (price y)); [exact Ny | | exact L].
        apply float_ltb_asym, E.
      * intros x [<-|I]; [exact L | apply A, I].
    + destruct (IH m Nm Nl') as (M & L & A).
      split; [|split].
      * destruct M as [M|M]; [left; exact M | right; right; exact M].
      * exact L.
      * intros x [<-|I]; [|apply A, I].
        apply (float_ltb_neg_trans _ (price m)); [exact Nm | exact E | exact L].
Qed.

(** X19: on binary64, when no line's price is NaN, the analytics'
    mostExpensiveItem and cheapestItem are undefined exactly on the empty
    cart; otherwise each is a line of the cart, no line's price is above
    that of mostExpensiveItem and none is below that of cheapestItem. *)
Theorem analytics_extremes (s : CartState (num := float)) :
  (forall line, In line (items s) -> PrimFloat.is_nan (price line) = false) ->
  match mostExpensiveItem s with
  | None => items s = []
  | Some top =>
      In top (items s)
      /\ forall line, In line (items s) ->
                      gtb (price line) (price top) = false
  end
  /\ match cheapestItem s with
     | None => items s = []
     | Some low =>
         In low (items s)
         /\ forall line, In line (items s) ->
                         ltb (price line) (price low) = false
     end.
Proof.
  unfold mostExpensiveItem, cheapestItem. intros N.
  destruct (items s) as [|first rest]; [split; reflexivity|].
  assert (Nf : PrimFloat.is_nan (price first) = false)
    by (apply N; left; reflexivity).
  split.
  - destruct (most_expensive_fold (first :: rest) first Nf N) as (M & _ & A).
    split; [|exact A].
    destruct M as [->|M]; [left; reflexivity | exact M].
  - destruct (cheapest_fold (first :: rest) first Nf N) as (M & _ & A).
    split; [|exact A].
    destruct M as [->|M]; [left; reflexivity | exact M].
Qed.

End Analytics.

(** ** Further properties: the reducer and the calculator together *)

Section EndToEnd.

Context {num : Type} `{JsNumber num}.




(** X21: after the load effect, whatever the storage holds, either the
    store is a cart, and then the summary effect makes its summary the one
    computed from its items, discounts and shipping, even when the stored
    cart carried another summary; or the stored text was not empty and
    parsed to a value that is no cart, and the store is no cart. *)
Theorem summary_consistent_after_startup
  (JSON_parse : string -> outcome Parsed)
  (localStorage : string -> option string) (st0 : Store) :
  match snd (loadEffect JSON_parse localStorage st0) with
  | StoreCart state => summary_consistent (exec summaryEffect state)
  | StoreOther json _ _ =>
      exists savedCart loading,
        localStorage CART_STORAGE_KEY = Some savedCart
        /\ savedCart <> EmptyString
        /\ JSON_parse savedCart = Returned (ParsedOther json loading)
  end.
Proof.
  rewrite loadEffect_store. simpl.
  destruct (localStorage CART_STORAGE_KEY) as [savedCart|] eqn:L;
    [|apply summaryEffect_consistent; reflexivity].
  destruct (String.eqb savedCart EmptyString) eqn:N;
    [apply summaryEffect_consistent; reflexivity|].
  destruct (JSON_parse savedCart) as [[cartData|json loading]|e] eqn:R.
  - apply summaryEffect_consistent. reflexivity.
  - exists savedCart, loading.
    split; [reflexivity|]. split; [apply String.eqb_neq, N | exact R].
  - apply summaryEffect_consistent. reflexivity.
Qed.

End EndToEnd.

(** ** Instances of the statements above *)

Lemma absent_id_is_ignored_witness :
  removeItem "p9-default" (settled (AddItem two_shirts) emptyCart)
  = (Returned tt, settled (AddItem two_shirts) emptyCart)
  /\ forall q,
       updateQuantity "p9-default" q (settled (AddItem two_shirts) emptyCart)
       = (Returned tt, settled (AddItem two_shirts) emptyCart).
Proof.
  apply (absent_id_is_ignored "p9-default"
           (settled (AddItem two_shirts) emptyCart)).
  intros item [<-|[]]. vm_compute. discriminate.
Defined.


Lemma clearCart_resets_summary_witness :
  items (settled ClearCart (settled (AddItem two_shirts) emptyCart)) = []
  /\ discounts (settled ClearCart (settled (AddItem two_shirts) emptyCart)) = []
  /\ shipping (settled ClearCart (settled (AddItem two_shirts) emptyCart))
     = None
  /\ summary (settled ClearCart (settled (AddItem two_shirts) emptyCart))
     = summary initialState.
Proof.
  apply (clearCart_resets_summary (settled (AddItem two_shirts) emptyCart)).
  reflexivity.
Defined.

Lemma absent_id_is_reported_witness :
  removeItemSafely "p9-default" (settled (AddItem two_shirts) emptyCart)
  = (Returned tt,
     with_error (settled (AddItem two_shirts) emptyCart)
                (Some "Item not found in cart"))
  /\ forall q,
       ltb q zero = false ->
       updateQuantitySafely (fun _ => "n") "p9-default" q
         (settled (AddItem two_shirts) emptyCart)
       = (Returned tt,
          with_error (settled (AddItem two_shirts) emptyCart)
                     (Some "Item not found in cart")).
Proof.
  apply (absent_id_is_reported (fun _ => "n") "p9-default"
           (settled (AddItem two_shirts) emptyCart)).
  intros item [<-|[]]. vm_compute. discriminate.
Defined.


Lemma summary_under_permutation_witness :
  let m1 := calculateCartSummary [half_line]
              [fixed_off "A" 0.1; fixed_off "B" 0.2; fixed_off "C" 0.3] None in
  let m2 := calculateCartSummary [half_line]
              [fixed_off "C" 0.3; fixed_off "B" 0.2; fixed_off "A" 0.1] None in
  subtotal m1 = subtotal m2
  /\ shippingAmount m1 = shippingAmount m2
  /\ itemCount m1 = itemCount m2
  /\ weight m1 = weight m2
  /\ discountAmount m1
     = fold_left add
         (flat_map (contribution (subtotal m1))
            [fixed_off "A" 0.1; fixed_off "B" 0.2; fixed_off "C" 0.3]) zero
  /\ discountAmount m2
     = fold_left add
         (flat_map (contribution (subtotal m1))
            [fixed_off "C" 0.3; fixed_off "B" 0.2; fixed_off "A" 0.1]) zero
  /\ Permutation
       (flat_map (contribution (subtotal m1))
          [fixed_off "A" 0.1; fixed_off "B" 0.2; fixed_off "C" 0.3])
       (flat_map (contribution (subtotal m1))
          [fixed_off "C" 0.3; fixed_off "B" 0.2; fixed_off "A" 0.1])
  /\ (m1 = m2 <-> discountAmount m1 = discountAmount m2).
Proof.
  apply (summary_under_permutation [half_line]
           [fixed_off "A" 0.1; fixed_off "B" 0.2; fixed_off "C" 0.3]
           [fixed_off "C" 0.3; fixed_off "B" 0.2; fixed_off "A" 0.1] None).
  apply (Permutation_rev
           [fixed_off "A" 0.1; fixed_off "B" 0.2; fixed_off "C" 0.3]).
Defined.

Lemma analytics_extremes_witness :
  match mostExpensiveItem three_prices with
  | None => items three_prices = []
  | Some top =>
      In top (items three_prices)
      /\ forall line, In line (items three_prices) ->
                      gtb (price line) (price top) = false
  end
  /\ match cheapestItem three_prices with
     | None => items three_prices = []
     | Some low =>
         In low (items three_prices)
         /\ forall line, In line (items three_prices) ->
                         ltb (price line) (price low) = false
     end.
Proof.
  apply (analytics_extremes three_prices).
  intros line [<-|[<-|[<-|[]]]]; reflexivity.
Defined.

Lemma updateQuantitySafely_stores_checked_quantity_witness :
  PrimFloat.is_nan 5%float = false
  /\ forall line,
    In line
       (items (snd (updateQuantitySafely (fun _ => "n") "p1-default" 5%float
                      (settled (AddItem two_shirts) emptyCart)))) ->
    In line (items (settled (AddItem two_shirts) emptyCart))
    \/ (id line = "p1-default"
        /\ quantity line = 5%float
        /\ gtb 5%float zero = true
        /\ exists item,
             find (has_id "p1-default")
                  (items (settled (AddItem two_shirts) emptyCart))
             = Some item
             /\ gtb 5%float (maxQuantity item) = false).
Proof.
  split; [reflexivity|].
  apply (updateQuantitySafely_stores_checked_quantity
           (fun _ => "n") "p1-default" 5%float
           (settled (AddItem two_shirts) emptyCart)).
  reflexivity.
Defined.
